(** * react-virtual: the virtualization engine, embedded and verified

    The development follows the two implementation variants of the hook:

    - [packages/react-virtual/src/index.ts] (the current package), whose
      definitions live at top level and in the modules [WindowScroll] and
      [UseVirtual];
    - [src/index.js] (the earlier variant), in module [Legacy].

    Pixel quantities (offsets, sizes) are JavaScript numbers; they are
    modelled as exact rationals [Q], compared with [==]; rounding, [NaN]
    and the infinities are left out.  Since rounding does not survive
    re-association or cancellation, a theorem that gives the value of a
    computed number gives the expression the code evaluates, in the code's
    order of operations (a running sum is accumulated left to right).
    Indices and counts are integers:
    [nat] where the code only ever counts upwards from zero, [Z] where it
    subtracts or receives a caller-supplied index.  A JavaScript array is a
    list of optional elements, [None] being a hole. *)

From Stdlib Require Import ZArith QArith Lqa Lia.
From stdpp Require Import base option list strings gmap pretty.

(** ** JavaScript numbers *)

Module Num.

(** [x < y] on numbers. *)
Definition lt (x y : Q) : bool := negb (Qle_bool y x).

(** [x <= y] on numbers. *)
Definition le (x y : Q) : bool := Qle_bool x y.

(** [x >= y] on numbers. *)
Definition ge (x y : Q) : bool := Qle_bool y x.

(** [x !== y] on numbers. *)
Definition strictNe (x y : Q) : bool := negb (Qeq_bool x y).

(** [v || d] where [v] is a number or [undefined]: zero and [undefined]
    are falsy. *)
Definition orElse (v : option Q) (d : Q) : Q :=
  match v with
  | Some x => if Qeq_bool x 0 then d else x
  | None => d
  end.

(** ToInt32: reduction modulo 2^32 into the signed range. *)
Definition toInt32 (z : Z) : Z :=
  ((z + 2 ^ 31) mod 2 ^ 32 - 2 ^ 31)%Z.

(** [a | b] on numbers that are already integers. *)
Definition bitOr (a b : Z) : Z := Z.lor (toInt32 a) (toInt32 b).

End Num.

(** ** JavaScript arrays, with holes *)

Abbreviation array A := (list (option A)).

Module JsArray.

(** [a[i]]: [undefined] (here [None]) on a hole, past the end, and at a
    negative index. *)
Definition get {A} (a : array A) (i : Z) : option A :=
  if (i <? 0)%Z then None else mjoin (a !! Z.to_nat i).

(** [a[i] = x]: overwrites in range, extends the array with holes past
    its end. *)
Definition set {A} (a : array A) (i : nat) (x : A) : array A :=
  if decide (i < length a) then <[i := Some x]> a
  else a ++ replicate (i - length a) None ++ [Some x].

(** [a.slice(0, n)] for [n >= 0]. *)
Definition slice0 {A} (a : array A) (n : nat) : array A := take n a.

(** An array without holes. *)
Definition dense {A} (l : list A) : array A := Some <$> l.

End JsArray.

(** ** Outcomes of code that can throw *)

Inductive outcome (A : Type) : Type :=
| Returns (a : A)
| Throws          (* a TypeError: a property read on [undefined] *)
| OutOfFuel.      (* the loop bound of the model was reached *)
Arguments Returns {A} a.
Arguments Throws {A}.
Arguments OutOfFuel {A}.

Definition obind {A B} (o : outcome A) (k : A → outcome B) : outcome B :=
  match o with
  | Returns a => k a
  | Throws => Throws
  | OutOfFuel => OutOfFuel
  end.

Notation "x ←! o ; k" := (obind o (fun x => k))
  (at level 20, o at level 100, k at level 200, right associativity,
   only parsing).

(** [v!.field]: reading through [undefined] throws. *)
Definition deref {A} (v : option A) : outcome A :=
  match v with
  | Some a => Returns a
  | None => Throws
  end.

(** ** Data model *)

(** [type Key = number | string].  A key is used as a property name of the
    measured cache, so a numeric key and its decimal spelling name the same
    entry.  Numeric keys are integers (below 10^21 in magnitude, where
    JavaScript spells a number in plain decimal). *)
Inductive Key : Type :=
| KeyNumber (n : Z)
| KeyString (s : string).

Definition propertyName (k : Key) : string :=
  match k with
  | KeyNumber n => pretty n
  | KeyString s => s
  end.

Inductive ScrollAlignment : Type :=
| AlignStart
| AlignCenter
| AlignEnd
| AlignAuto.

Inductive ScrollReason : Type :=
| ToIndex
| ToOffset
| SizeChanged.

Module Measurement.
Record t : Type := mk {
  key : Key;
  index : nat;
  start : Q;
  end_ : Q;
  size : Q;
}.
End Measurement.

Module Range.
Record t : Type := mk {
  start : Z;
  end_ : Z;
  overscan : Z;
  size : Z;
}.
End Range.

Definition defaultEstimateSize (_ : nat) : Q := 50.

Definition defaultKeyExtractor (index : nat) : Key := KeyNumber (Z.of_nat index).

Record HTMLElement : Type := {
  offsetWidth : Q;
  offsetHeight : Q;
}.

Definition defaultMeasureSize (el : HTMLElement) (horizontal : bool) : Q :=
  if horizontal then offsetWidth el else offsetHeight el.

(** [for (let i = start; i <= end; i++) arr.push(i)] *)
Definition defaultRangeExtractor (range : Range.t) : list nat :=
  let start := Z.max (Range.start range - Range.overscan range) 0 in
  let end_ := Z.min (Range.end_ range + Range.overscan range) (Range.size range - 1) in
  seq (Z.to_nat start) (Z.to_nat (end_ - start + 1)).

(** ** Range locator *)

(** The [while (low <= high)] loop of [findNearestBinarySearch].  The
    recursion is bounded by [fuel]; [getCurrentValue] may throw. *)
Fixpoint findNearestBinarySearch_loop (fuel : nat) (low high : Z)
    (getCurrentValue : Z → outcome Q) (value : Q) : outcome Z :=
  match fuel with
  | O => OutOfFuel
  | S fuel' =>
      if (low <=? high)%Z then
        let middle := Num.bitOr (Z.quot (low + high) 2) 0 in
        currentValue ←! getCurrentValue middle;
        if Num.lt currentValue value then
          findNearestBinarySearch_loop fuel' (middle + 1)%Z high getCurrentValue value
        else if Num.lt value currentValue then
          findNearestBinarySearch_loop fuel' low (middle - 1)%Z getCurrentValue value
        else Returns middle
      else if (0 <? low)%Z then Returns (low - 1)%Z
      else Returns 0%Z
  end.

(** Every iteration that does not return shrinks [high - low] by at least
    one while [middle] lies between the bounds, so this much fuel is never
    used up on an array of at most 2^31 elements (see
    [findNearestBinarySearch_spec]). *)
Definition findNearestBinarySearch (low high : Z)
    (getCurrentValue : Z → outcome Q) (value : Q) : outcome Z :=
  findNearestBinarySearch_loop (Z.to_nat (high - low + 2)) low high
    getCurrentValue value.

Module Latest.
(** The record behind [latestRef.current]. *)
Record t : Type := mk {
  outerSize : Q;
  scrollOffset : Q;
  measurements : array Measurement.t;
  totalSize : Q;
}.
End Latest.

(** [while (end < size && measurements[end]!.end < scrollOffset + outerSize) end++],
    with [remaining = size - end], which is zero exactly when [end < size]
    fails. *)
Fixpoint calculateRange_end (measurements : array Measurement.t)
    (limit : Q) (remaining : nat) (end_ : Z) : outcome Z :=
  match remaining with
  | O => Returns end_
  | S remaining' =>
      m ←! deref (JsArray.get measurements end_);
      if Num.lt (Measurement.end_ m) limit then
        calculateRange_end measurements limit remaining' (end_ + 1)%Z
      else Returns end_
  end.

Definition calculateRange (latest : Latest.t) : outcome (Z * Z) :=
  let measurements := Latest.measurements latest in
  let outerSize := Latest.outerSize latest in
  let scrollOffset := Latest.scrollOffset latest in
  let size := (Z.of_nat (length measurements) - 1)%Z in
  let getOffset := fun index : Z =>
    m ←! deref (JsArray.get measurements index); Returns (Measurement.start m) in
  start ←! findNearestBinarySearch 0 size getOffset scrollOffset;
  end_ ←! calculateRange_end measurements (scrollOffset + outerSize)
            (Z.to_nat (size - start)) start;
  Returns (start, end_).

(** ** Scroll source adapter, window variant ([useWindowScroll]) *)

Module WindowScroll.

(** The window, as far as the adapter reads it. *)
Record Window : Type := {
  scrollX : Q;
  scrollY : Q;
}.

(** [parentRef.current.getBoundingClientRect()], as far as it is read. *)
Record DOMRect : Type := {
  left : Q;
  top : Q;
}.

(** The argument of [window.scrollTo]: the computed key [rectKey] is the
    only property set. *)
Record ScrollToArg : Type := {
  arg_left : option Q;
  arg_top : option Q;
}.

(** The hook's own cells: the [scrollOffset] state reported to the
    virtualizer and [parentOffsetRef.current]. *)
Record t : Type := mk {
  scrollOffset : Q;
  parentOffsetRef : Q;
}.

Definition initial : t := mk 0 0.

Section Axis.

Variable horizontal : bool.

(** [element[scrollKey]] with [scrollKey = horizontal ? 'scrollX' : 'scrollY'] *)
Definition scrollPosition (element : Window) : Q :=
  if horizontal then scrollX element else scrollY element.

(** [rect[rectKey]] with [rectKey = horizontal ? 'left' : 'top'] *)
Definition rectOffset (rect : DOMRect) : Q :=
  if horizontal then left rect else top rect.

(** The scroll listener. *)
Definition onScroll (element : Window) (st : t) : t :=
  let offset := (scrollPosition element - parentOffsetRef st)%Q in
  mk offset (parentOffsetRef st).

(** The body of the layout effect that runs on (re)attachment. *)
Definition attach (element : option Window) (parent : option DOMRect)
    (st : t) : t :=
  match element with
  | None => mk 0 0
  | Some element =>
      let st :=
        match parent with
        | Some rect =>
            mk (scrollOffset st) (scrollPosition element + rectOffset rect)%Q
        | None => st
        end in
      onScroll element st
  end.

(** [['ToIndex', 'SizeChanged'].includes(reason)] *)
Definition translated (reason : ScrollReason) : bool :=
  match reason with
  | ToIndex | SizeChanged => true
  | ToOffset => false
  end.

(** [scrollToFn]: the argument handed to [windowRef.current.scrollTo],
    if there is a window. *)
Definition scrollToFn (window : option Window) (st : t)
    (offset : Q) (reason : ScrollReason) : option ScrollToArg :=
  match window with
  | Some _ =>
      let delta := if translated reason then parentOffsetRef st else 0%Q in
      let target := (offset + delta)%Q in
      Some (if horizontal
            then {| arg_left := Some target; arg_top := None |}
            else {| arg_left := None; arg_top := Some target |})
  | None => None
  end.

(** The value written on the active axis. *)
Definition written (arg : ScrollToArg) : option Q :=
  if horizontal then arg_left arg else arg_top arg.

End Axis.

End WindowScroll.

(** ** Virtualizer controller ([useVirtual]) *)

(** What the hook does to its surroundings.  The adapter's setter
    ([defaultScrollToFn], obtained from [useScroll]) and the caller's
    [scrollToFn] option are code outside the hook: a call to either is
    recorded with its arguments.  The fallback handed to the caller's
    [scrollToFn] is bound to [reason]. *)
Inductive Effect : Type :=
| DefaultScrollTo (offset : Q) (reason : ScrollReason)
| CustomScrollTo (offset : Q) (reason : ScrollReason).

Module World.

(** The mutable cells of one hook instance: its refs, the
    [measuredCache] state (updaters are applied in the order they are
    queued), the effects performed so far and the callbacks waiting for
    the next animation frame (the arguments of [tryScrollToIndex]). *)
Record t : Type := mk {
  latestRef : Latest.t;
  scrollOffsetWithAdjustmentsRef : Q;
  measuredCache : gmap string Q;
  pendingMeasuredCacheIndexesRef : list nat;
  effects : list Effect;
  animationFrames : list (Z * ScrollAlignment);
}.

Definition initial (scrollOffset : Q) : t :=
  mk (Latest.mk 0 0 [] 0) scrollOffset ∅ [] [] [].

Definition perform (e : Effect) (w : t) : t :=
  mk (latestRef w) (scrollOffsetWithAdjustmentsRef w) (measuredCache w)
     (pendingMeasuredCacheIndexesRef w) (effects w ++ [e]) (animationFrames w).

Definition setAdjustments (x : Q) (w : t) : t :=
  mk (latestRef w) x (measuredCache w)
     (pendingMeasuredCacheIndexesRef w) (effects w) (animationFrames w).

Definition setMeasuredCache (f : gmap string Q → gmap string Q) (w : t) : t :=
  mk (latestRef w) (scrollOffsetWithAdjustmentsRef w) (f (measuredCache w))
     (pendingMeasuredCacheIndexesRef w) (effects w) (animationFrames w).

Definition setPending (l : list nat) (w : t) : t :=
  mk (latestRef w) (scrollOffsetWithAdjustmentsRef w) (measuredCache w)
     l (effects w) (animationFrames w).

Definition setLatest (l : Latest.t) (w : t) : t :=
  mk l (scrollOffsetWithAdjustmentsRef w) (measuredCache w)
     (pendingMeasuredCacheIndexesRef w) (effects w) (animationFrames w).

Definition setAnimationFrames (fs : list (Z * ScrollAlignment)) (w : t) : t :=
  mk (latestRef w) (scrollOffsetWithAdjustmentsRef w) (measuredCache w)
     (pendingMeasuredCacheIndexesRef w) (effects w) fs.

End World.

Module VirtualItem.
(** [{ ...measurement, measureRef }]: the span copied at creation
    ([None] when [measurements[i]] was [undefined]) and the index [i] the
    hook closes over. *)
Record t : Type := mk {
  measurement : option Measurement.t;
  i : nat;
}.
End VirtualItem.

Module UseVirtual.
Section Hook.

(** The options of one render. [scrollToFn] tells whether the caller
    supplied one. *)
Variable size : nat.
Variable estimateSize : nat → Q.
Variable overscan : Z.
Variable paddingStart paddingEnd : Q.
Variable horizontal : bool.
Variable scrollToFn : bool.
Variable keyExtractor : nat → Key.
Variable measureSize : HTMLElement → bool → Q.
Variable rangeExtractor : Range.t → list nat.

(** [scrollTo] *)
Definition scrollTo (offset : Q) (reason : ScrollReason) (w : World.t) : World.t :=
  if scrollToFn then World.perform (CustomScrollTo offset reason) w
  else World.perform (DefaultScrollTo offset reason) w.

(** [pending.length > 0 ? Math.min(...pending) : 0] *)
Definition minPending (pending : list nat) : nat :=
  match pending with
  | [] => 0
  | i :: rest => foldr Nat.min i rest
  end.

(** The [for (let i = min; i < size; i++)] loop of the [measurements]
    memo; [count] is [size - i]. *)
Fixpoint measurements_loop (measuredCache : gmap string Q) (count i : nat)
    (measurements : array Measurement.t) : array Measurement.t :=
  match count with
  | O => measurements
  | S count' =>
      let key := keyExtractor i in
      let measuredSize := measuredCache !! propertyName key in
      let start :=
        match JsArray.get measurements (Z.of_nat i - 1) with
        | Some previous => Measurement.end_ previous
        | None => paddingStart
        end in
      let size_ :=
        match measuredSize with
        | Some measured => measured
        | None => estimateSize i
        end in
      let end_ := (start + size_)%Q in
      measurements_loop measuredCache count' (S i)
        (JsArray.set measurements i (Measurement.mk key i start end_ size_))
  end.

(** The [measurements] memo, given the cache, the pending indexes and
    [latestRef.current.measurements] as it finds them. *)
Definition measurements (measuredCache : gmap string Q) (pending : list nat)
    (latestMeasurements : array Measurement.t) : array Measurement.t :=
  let min := minPending pending in
  measurements_loop measuredCache (size - min) min
    (JsArray.slice0 latestMeasurements min).

(** [(measurements[size - 1]?.end || 0) + paddingEnd] *)
Definition totalSize (measurements : array Measurement.t) : Q :=
  (Num.orElse (Measurement.end_ <$> JsArray.get measurements (Z.of_nat size - 1)) 0
   + paddingEnd)%Q.

(** The resolution of [align === 'auto'] in [scrollToOffset]. *)
Definition scrollToOffset_align (toOffset scrollOffset outerSize : Q)
    (align : ScrollAlignment) : ScrollAlignment :=
  match align with
  | AlignAuto =>
      if Num.le toOffset scrollOffset then AlignStart
      else if Num.ge toOffset (scrollOffset + outerSize) then AlignEnd
      else AlignStart
  | _ => align
  end.

Definition scrollToOffset (toOffset : Q) (align : ScrollAlignment)
    (reason : ScrollReason) (w : World.t) : World.t :=
  let scrollOffset := Latest.scrollOffset (World.latestRef w) in
  let outerSize := Latest.outerSize (World.latestRef w) in
  match scrollToOffset_align toOffset scrollOffset outerSize align with
  | AlignStart => scrollTo toOffset reason w
  | AlignEnd => scrollTo (toOffset - outerSize) reason w
  | AlignCenter => scrollTo (toOffset - outerSize / 2) reason w
  | AlignAuto => w
  end.

(** [Math.max(0, Math.min(index, size - 1))] *)
Definition clampIndex (index : Z) : Z :=
  Z.max 0 (Z.min index (Z.of_nat size - 1)).

Definition tryScrollToIndex (index : Z) (align : ScrollAlignment)
    (w : World.t) : World.t :=
  let measurements := Latest.measurements (World.latestRef w) in
  let scrollOffset := Latest.scrollOffset (World.latestRef w) in
  let outerSize := Latest.outerSize (World.latestRef w) in
  match JsArray.get measurements (clampIndex index) with
  | None => w
  | Some measurement =>
      let resolved :=
        match align with
        | AlignAuto =>
            if Num.ge (Measurement.end_ measurement) (scrollOffset + outerSize)
            then Some AlignEnd
            else if Num.le (Measurement.start measurement) scrollOffset
            then Some AlignStart
            else None
        | _ => Some align
        end in
      match resolved with
      | None => w
      | Some align =>
          let toOffset :=
            match align with
            | AlignCenter =>
                (Measurement.start measurement + Measurement.size measurement / 2)%Q
            | AlignEnd => Measurement.end_ measurement
            | _ => Measurement.start measurement
            end in
          scrollToOffset toOffset align ToIndex w
      end
  end.

(** [scrollToIndex]: one attempt now, one queued for the next frame. *)
Definition scrollToIndex (index : Z) (align : ScrollAlignment)
    (w : World.t) : World.t :=
  let w := tryScrollToIndex index align w in
  World.setAnimationFrames (World.animationFrames w ++ [(index, align)]) w.

(** The next animation frame runs the oldest queued callback. *)
Definition runAnimationFrame (w : World.t) : World.t :=
  match World.animationFrames w with
  | [] => w
  | (index, align) :: rest =>
      tryScrollToIndex index align (World.setAnimationFrames rest w)
  end.

(** [measure] *)
Definition measure (w : World.t) : World.t :=
  World.setMeasuredCache (fun _ => ∅) w.

(** [item.key] as a property name; [undefined] spells "undefined". *)
Definition itemKeyName (item : VirtualItem.t) : string :=
  match VirtualItem.measurement item with
  | Some m => propertyName (Measurement.key m)
  | None => "undefined"
  end.

(** [measuredSize !== item.size] *)
Definition sizeDiffers (measuredSize : Q) (item : VirtualItem.t) : bool :=
  match VirtualItem.measurement item with
  | Some m => Num.strictNe measuredSize (Measurement.size m)
  | None => true
  end.

(** [item.measureRef].  On an item without a span, [item.start <
    scrollOffset] compares [undefined] and is false. *)
Definition measureRef (item : VirtualItem.t) (el : option HTMLElement)
    (w : World.t) : World.t :=
  match el with
  | None => w
  | Some el =>
      let measuredSize := measureSize el horizontal in
      if sizeDiffers measuredSize item then
        let scrollOffset := Latest.scrollOffset (World.latestRef w) in
        let w :=
          match VirtualItem.measurement item with
          | Some m =>
              if Num.lt (Measurement.start m) scrollOffset then
                let delta := (measuredSize - Measurement.size m)%Q in
                let adjusted := (World.scrollOffsetWithAdjustmentsRef w + delta)%Q in
                World.perform (DefaultScrollTo adjusted SizeChanged)
                  (World.setAdjustments adjusted w)
              else w
          | None => w
          end in
        let w :=
          World.setPending
            (World.pendingMeasuredCacheIndexesRef w ++ [VirtualItem.i item]) w in
        World.setMeasuredCache (fun old => <[itemKeyName item := measuredSize]> old) w
      else w
  end.

(** One run of the hook body.  [outerSize] and [scrollOffset] are what
    [useScroll] reports; [depsChanged] tells whether a dependency of the
    [measurements] memo changed since the previous run (it always has on
    the first).  The result is the new state and [virtualItems]. *)
Definition render (depsChanged : bool) (outerSize scrollOffset : Q)
    (w : World.t) : outcome (World.t * list VirtualItem.t) :=
  let latest := World.latestRef w in
  let w :=
    if Num.strictNe (Latest.scrollOffset latest) scrollOffset
    then World.setAdjustments scrollOffset w else w in
  let pending := World.pendingMeasuredCacheIndexesRef w in
  let measurements_ :=
    if depsChanged
    then measurements (World.measuredCache w) pending (Latest.measurements latest)
    else Latest.measurements latest in
  let w := if depsChanged then World.setPending [] w else w in
  let latest := Latest.mk outerSize scrollOffset measurements_ (totalSize measurements_) in
  let w := World.setLatest latest w in
  range ←! calculateRange latest;
  let indexes :=
    rangeExtractor (Range.mk (fst range) (snd range) overscan (Z.of_nat size)) in
  let virtualItems :=
    (fun i => VirtualItem.mk (JsArray.get measurements_ (Z.of_nat i)) i) <$> indexes in
  Returns (w, virtualItems).

End Hook.
End UseVirtual.

(** ** The earlier variant ([src/index.js]) *)

Module Legacy.

Module Measurement.
(** [{ index: i, start, size, end }] *)
Record t : Type := mk {
  index : nat;
  start : Q;
  size : Q;
  end_ : Q;
}.
End Measurement.

Module Latest.
(** [latestRef.current]; [scrollOffset] is [undefined] while there is
    no scroll element. *)
Record t : Type := mk {
  overscan : Z;
  measurements : array Measurement.t;
  outerSize : Q;
  totalSize : Q;
  scrollOffset : option Q;
}.
End Latest.

(** Calls that leave the hook: the built-in setter
    ([defaultScrollToFn], which writes the element's scroll position) and
    the caller's [scrollToFn] option. *)
Inductive Effect : Type :=
| DefaultScrollTo (offset : Q)
| CustomScrollTo (offset : Q).

Module World.
Record t : Type := mk {
  latestRef : Latest.t;
  measuredCache : gmap string Q;
  effects : list Effect;
  animationFrames : list (Z * ScrollAlignment);
}.

Definition perform (e : Effect) (w : t) : t :=
  mk (latestRef w) (measuredCache w) (effects w ++ [e]) (animationFrames w).

Definition setMeasuredCache (f : gmap string Q → gmap string Q) (w : t) : t :=
  mk (latestRef w) (f (measuredCache w)) (effects w) (animationFrames w).

Definition setAnimationFrames (fs : list (Z * ScrollAlignment)) (w : t) : t :=
  mk (latestRef w) (measuredCache w) (effects w) fs.
End World.

(** A comparison of a number with a possibly [undefined] one: false on
    [undefined] (the other side is then [NaN]). *)
Definition compare (op : Q → Q → bool) (x : Q) (y : option Q) : bool :=
  match y with
  | Some y => op x y
  | None => false
  end.

(** [scrollOffset + outerSize] with [scrollOffset] possibly [undefined]. *)
Definition plus (x : option Q) (y : Q) : option Q :=
  (fun x => (x + y)%Q) <$> x.

Section Hook.

Variable size : nat.
Variable estimateSize : nat → Q.
Variable paddingStart paddingEnd : Q.
Variable scrollToFn : bool.
Variable keyExtractor : nat → Key.

(** The [for (let i = 0; i < size; i++)] loop; [count] is [size - i]. *)
Fixpoint measurements_loop (measuredCache : gmap string Q) (count i : nat)
    (measurements : array Measurement.t) : array Measurement.t :=
  match count with
  | O => measurements
  | S count' =>
      let measuredSize := measuredCache !! propertyName (keyExtractor i) in
      let start :=
        match JsArray.get measurements (Z.of_nat i - 1) with
        | Some previous => Measurement.end_ previous
        | None => paddingStart
        end in
      let size_ :=
        match measuredSize with
        | Some measured => measured
        | None => estimateSize i
        end in
      let end_ := (start + size_)%Q in
      measurements_loop measuredCache count' (S i)
        (JsArray.set measurements i (Measurement.mk i start size_ end_))
  end.

Definition measurements (measuredCache : gmap string Q) : array Measurement.t :=
  measurements_loop measuredCache size 0 [].

(** [(measurements[size - 1]?.end || 0) + paddingEnd] *)
Definition totalSize (measurements : array Measurement.t) : Q :=
  (Num.orElse (Measurement.end_ <$> JsArray.get measurements (Z.of_nat size - 1)) 0
   + paddingEnd)%Q.

(** The wrapped [scrollToFn]. *)
Definition scrollTo (offset : Q) (w : World.t) : World.t :=
  if scrollToFn then World.perform (CustomScrollTo offset) w
  else World.perform (DefaultScrollTo offset) w.

(** [item.measureRef] for the item created at index [i].  An element is
    given by [el.getBoundingClientRect()[sizeKey]], all that is read of
    it. *)
Definition measureRef (item : Measurement.t) (i : nat) (el : option Q)
    (w : World.t) : World.t :=
  let scrollOffset := Latest.scrollOffset (World.latestRef w) in
  match el with
  | None => w
  | Some measuredSize =>
      if Num.strictNe measuredSize (Measurement.size item) then
        let w :=
          match scrollOffset with
          | Some scrollOffset =>
              if Num.lt (Measurement.start item) scrollOffset then
                World.perform
                  (DefaultScrollTo
                     (scrollOffset + (measuredSize - Measurement.size item))%Q) w
              else w
          | None => w
          end in
        World.setMeasuredCache
          (fun old => <[propertyName (keyExtractor i) := measuredSize]> old) w
      else w
  end.

Definition scrollToOffset_align (toOffset : Q) (scrollOffset : option Q)
    (outerSize : Q) (align : ScrollAlignment) : ScrollAlignment :=
  match align with
  | AlignAuto =>
      if compare Num.le toOffset scrollOffset then AlignStart
      else if compare Num.ge toOffset (plus scrollOffset outerSize) then AlignEnd
      else AlignStart
  | _ => align
  end.

Definition scrollToOffset (toOffset : Q) (align : ScrollAlignment)
    (w : World.t) : World.t :=
  let scrollOffset := Latest.scrollOffset (World.latestRef w) in
  let outerSize := Latest.outerSize (World.latestRef w) in
  match scrollToOffset_align toOffset scrollOffset outerSize align with
  | AlignStart => scrollTo toOffset w
  | AlignEnd => scrollTo (toOffset - outerSize) w
  | AlignCenter => scrollTo (toOffset - outerSize / 2) w
  | AlignAuto => w
  end.

Definition clampIndex (index : Z) : Z :=
  Z.max 0 (Z.min index (Z.of_nat size - 1)).

Definition tryScrollToIndex (index : Z) (align : ScrollAlignment)
    (w : World.t) : World.t :=
  let measurements := Latest.measurements (World.latestRef w) in
  let scrollOffset := Latest.scrollOffset (World.latestRef w) in
  let outerSize := Latest.outerSize (World.latestRef w) in
  match JsArray.get measurements (clampIndex index) with
  | None => w
  | Some measurement =>
      let resolved :=
        match align with
        | AlignAuto =>
            if compare Num.ge (Measurement.end_ measurement)
                 (plus scrollOffset outerSize)
            then Some AlignEnd
            else if compare Num.le (Measurement.start measurement) scrollOffset
            then Some AlignStart
            else None
        | _ => Some align
        end in
      match resolved with
      | None => w
      | Some align =>
          let toOffset :=
            match align with
            | AlignCenter =>
                (Measurement.start measurement
                 + Measurement.size measurement / 2)%Q
            | AlignEnd => Measurement.end_ measurement
            | _ => Measurement.start measurement
            end in
          scrollToOffset toOffset align w
      end
  end.

Definition scrollToIndex (index : Z) (align : ScrollAlignment)
    (w : World.t) : World.t :=
  let w := tryScrollToIndex index align w in
  World.setAnimationFrames (World.animationFrames w ++ [(index, align)]) w.

End Hook.

Module Range.
(** The [range] state. *)
Record t : Type := mk {
  start : Z;
  end_ : Z;
}.
End Range.

(** [x > y] on numbers. *)
Definition gt (x y : Q) : bool := Num.lt y x.

(** The [while (low <= high)] loop of this file's
    [findNearestBinarySearch]; [value] is [latestRef.current.scrollOffset],
    possibly [undefined]. *)
Fixpoint findNearestBinarySearch_loop (fuel : nat) (low high : Z)
    (getCurrentValue : Z → outcome Q) (value : option Q) : outcome Z :=
  match fuel with
  | O => OutOfFuel
  | S fuel' =>
      if (low <=? high)%Z then
        let middle := Num.bitOr (Z.quot (low + high) 2) 0 in
        currentValue ←! getCurrentValue middle;
        if compare Num.lt currentValue value then
          findNearestBinarySearch_loop fuel' (middle + 1)%Z high getCurrentValue value
        else if compare gt currentValue value then
          findNearestBinarySearch_loop fuel' low (middle - 1)%Z getCurrentValue value
        else Returns middle
      else if (0 <? low)%Z then Returns (low - 1)%Z
      else Returns 0%Z
  end.

Definition findNearestBinarySearch (low high : Z)
    (getCurrentValue : Z → outcome Q) (value : option Q) : outcome Z :=
  findNearestBinarySearch_loop (Z.to_nat (high - low + 2)) low high
    getCurrentValue value.

(** [while (end < size && measurements[end].end < scrollOffset + outerSize) end++],
    with [remaining = size - end]. *)
Fixpoint calculateRange_end (measurements : array Measurement.t)
    (limit : option Q) (remaining : nat) (end_ : Z) : outcome Z :=
  match remaining with
  | O => Returns end_
  | S remaining' =>
      m ←! deref (JsArray.get measurements end_);
      if compare Num.lt (Measurement.end_ m) limit then
        calculateRange_end measurements limit remaining' (end_ + 1)%Z
      else Returns end_
  end.

Definition calculateRange (latest : Latest.t) (prevRange : option Range.t)
    : outcome Range.t :=
  let overscan := Latest.overscan latest in
  let measurements := Latest.measurements latest in
  let outerSize := Latest.outerSize latest in
  let scrollOffset := Latest.scrollOffset latest in
  let size := (Z.of_nat (length measurements) - 1)%Z in
  let getOffset := fun index : Z =>
    m ←! deref (JsArray.get measurements index); Returns (Measurement.start m) in
  start ←! findNearestBinarySearch 0 size getOffset scrollOffset;
  end_ ←! calculateRange_end measurements (plus scrollOffset outerSize)
            (Z.to_nat (size - start)) start;
  let start := Z.max (start - overscan) 0 in
  let end_ := Z.min (end_ + overscan) size in
  match prevRange with
  | None => Returns (Range.mk start end_)
  | Some prevRange =>
      if negb (Range.start prevRange =? start)%Z
         || negb (Range.end_ prevRange =? end_)%Z
      then Returns (Range.mk start end_)
      else Returns prevRange
  end.

(** The indices and spans of the [virtualItems] memo:
    [for (let i = range.start; i <= end; i++)] with
    [end = Math.min(range.end, measurements.length - 1)]. *)
Definition virtualItems (range : Range.t) (measurements : array Measurement.t)
    : list (Z * option Measurement.t) :=
  let end_ := Z.min (Range.end_ range) (Z.of_nat (length measurements) - 1) in
  (fun i => (i, JsArray.get measurements i))
    <$> seqZ (Range.start range) (end_ - Range.start range + 1).

End Legacy.

(** * Specification vocabulary *)

(** What the two [Measurement] shapes share. *)
Class Span (M : Type) : Type := {
  span_start : M → Q;
  span_end : M → Q;
  span_size : M → Q;
}.

#[global] Instance measurement_span : Span Measurement.t :=
  {| span_start := Measurement.start;
     span_end := Measurement.end_;
     span_size := Measurement.size |}.

#[global] Instance legacy_measurement_span : Span Legacy.Measurement.t :=
  {| span_start := Legacy.Measurement.start;
     span_end := Legacy.Measurement.end_;
     span_size := Legacy.Measurement.size |}.

(** The span invariant on the first [n] spans: each exists, ends at its
    start plus its size, and starts where its predecessor ends, the first
    one at [paddingStart]. *)
Definition contiguous {M} `{Span M} (paddingStart : Q) (n : nat)
    (spans : array M) : Prop :=
  ∀ i, i < n →
    ∃ m, JsArray.get spans (Z.of_nat i) = Some m ∧
      span_end m == span_start m + span_size m ∧
      (i = 0 → span_start m == paddingStart) ∧
      (0 < i → ∃ p, JsArray.get spans (Z.of_nat i - 1) = Some p ∧
                    span_start m == span_end p).

(** The size the cache and the estimator give index [i]: the measured
    size when the cache holds one under the index's key, the estimate
    otherwise. *)
Definition expectedSize (estimateSize : nat → Q) (keyExtractor : nat → Key)
    (measuredCache : gmap string Q) (i : nat) : Q :=
  match measuredCache !! propertyName (keyExtractor i) with
  | Some measured => measured
  | None => estimateSize i
  end.

(** Every one of the first [n] spans has the size of [expectedSize]. *)
Definition sizesFollowCache {M} `{Span M} (estimateSize : nat → Q)
    (keyExtractor : nat → Key) (measuredCache : gmap string Q) (n : nat)
    (spans : array M) : Prop :=
  ∀ i, i < n →
    ∃ m, JsArray.get spans (Z.of_nat i) = Some m ∧
      span_size m == expectedSize estimateSize keyExtractor measuredCache i.

(** Where span [i] starts: at the end of span [i - 1] if there is one, at
    [paddingStart] otherwise. *)
Definition startAfter {M} `{Span M} (paddingStart : Q) (spans : array M)
    (i : nat) : Q :=
  match JsArray.get spans (Z.of_nat i - 1) with
  | Some previous => span_end previous
  | None => paddingStart
  end.

Definition startAt (spans : array Measurement.t) (z : Z) : Q :=
  from_option Measurement.start 0%Q (JsArray.get spans z).

Definition endAt (spans : array Measurement.t) (z : Z) : Q :=
  from_option Measurement.end_ 0%Q (JsArray.get spans z).

Definition noHoles {A} (a : array A) : Prop :=
  ∀ z, (0 ≤ z < Z.of_nat (length a))%Z → is_Some (JsArray.get a z).

Definition nonNegativeSizes (spans : array Measurement.t) : Prop :=
  ∀ z m, JsArray.get spans z = Some m → (0 <= Measurement.size m)%Q.

(** Starts sorted, monotonically non-decreasing. *)
Definition sortedStarts (spans : array Measurement.t) : Prop :=
  ∀ i j mi mj, (i ≤ j)%Z →
    JsArray.get spans i = Some mi → JsArray.get spans j = Some mj →
    (Measurement.start mi <= Measurement.start mj)%Q.

(** Starts strictly increasing. *)
Definition increasingStarts (spans : array Measurement.t) : Prop :=
  ∀ i j mi mj, (i < j)%Z →
    JsArray.get spans i = Some mi → JsArray.get spans j = Some mj →
    (Measurement.start mi < Measurement.start mj)%Q.

(** [s] is the greatest index whose start is at most [scrollOffset]. *)
Definition greatestStartAtMost (spans : array Measurement.t) (scrollOffset : Q)
    (s : Z) : Prop :=
  (∃ ms, JsArray.get spans s = Some ms ∧ (Measurement.start ms <= scrollOffset)%Q) ∧
  ∀ i m, JsArray.get spans i = Some m →
    (Measurement.start m <= scrollOffset)%Q → (i ≤ s)%Z.

(** What the binary search finds among the values [f 0 .. f (n - 1)]:
    either an index whose value is at most [value], past which every value
    that is at most [value] equals it (and then so does the one found); or
    index 0 when every value exceeds [value]. *)
Definition nearest (n : Z) (f : Z → Q) (value : Q) (r : Z) : Prop :=
  ((0 ≤ r < n)%Z ∧ (f r <= value)%Q ∧
   ∀ z, (r < z < n)%Z → (f z <= value)%Q → f z == value ∧ f r == value)
  ∨ (r = 0%Z ∧ ∀ z, (0 ≤ z < n)%Z → (value < f z)%Q).

(** The call [scrollTo] makes: to the caller's [scrollToFn] when there is
    one, to the adapter's setter otherwise. *)
Definition setterCall (scrollToFn : bool) (offset : Q) (reason : ScrollReason)
    : Effect :=
  if scrollToFn then CustomScrollTo offset reason
  else DefaultScrollTo offset reason.

(** Where the first [n] spans end, accumulated as the loop of the
    [measurements] memo does, left to right from [paddingStart]:
    [((paddingStart + sizes 0) + sizes 1) + ...]. *)
Fixpoint runningEnd (sizes : nat → Q) (paddingStart : Q) (n : nat) : Q :=
  match n with
  | O => paddingStart
  | S n' => (runningEnd sizes paddingStart n' + sizes n')%Q
  end.

(** [spans] is what a derivation from scratch yields for [N] items of the
    given sizes: [N] spans without holes, span [i] carrying its index and
    key, starting where span [i - 1] ends ([paddingStart] for the first)
    and ending at its start plus its size. *)
Definition derivation (keyExtractor : nat → Key) (sizes : nat → Q)
    (paddingStart : Q) (N : nat) (spans : array Measurement.t) : Prop :=
  length spans = N ∧
  ∀ i, i < N →
    JsArray.get spans (Z.of_nat i)
    = Some (Measurement.mk (keyExtractor i) i
              (startAfter paddingStart spans i)
              (startAfter paddingStart spans i + sizes i)
              (sizes i)).

(** A span is visible when it ends after the scroll offset and starts
    before the end of the viewport. *)
Definition visible (scrollOffset outerSize : Q) (m : Measurement.t) : Prop :=
  (scrollOffset < Measurement.end_ m)%Q ∧
  (Measurement.start m < scrollOffset + outerSize)%Q.

(** A span of [src/index.js] with the key [index.ts] would give it. *)
Definition keyed (keyExtractor : nat → Key) (m : Legacy.Measurement.t)
    : Measurement.t :=
  Measurement.mk (keyExtractor (Legacy.Measurement.index m))
    (Legacy.Measurement.index m) (Legacy.Measurement.start m)
    (Legacy.Measurement.end_ m) (Legacy.Measurement.size m).

(** The spans of [src/index.js], holes kept, each with its key. *)
Definition keyedSpans (keyExtractor : nat → Key)
    (spans : array Legacy.Measurement.t) : array Measurement.t :=
  option_map (keyed keyExtractor) <$> spans.

(** [index.ts]'s range, widened by [overscan] and clamped as
    [src/index.js] does. *)
Definition widened (overscan : Z) (length : nat) (range : Z * Z) : Legacy.Range.t :=
  Legacy.Range.mk (Z.max (fst range - overscan) 0)
    (Z.min (snd range + overscan) (Z.of_nat length - 1)).

(** * Scenarios *)

Module Scenario.

(** An element whose measured height is [h]. *)
Definition element (h : Q) : HTMLElement :=
  {| offsetWidth := 0; offsetHeight := h |}.

(** One run of the hook body with two items, the default estimator, key
    function, range extractor and overscan, a viewport of 200 at scroll
    offset 0, and the given [paddingStart]. *)
Definition render (paddingStart : Q) (w : World.t)
    : outcome (World.t * list VirtualItem.t) :=
  UseVirtual.render 2 defaultEstimateSize 1 paddingStart 0 defaultKeyExtractor
    defaultRangeExtractor true 200 0 w.

(** The measurement hook of the [i]-th rendered item, called with an
    element of height [h]. *)
Definition report (items : list VirtualItem.t) (i : nat) (h : Q)
    (w : World.t) : World.t :=
  match items !! i with
  | Some item => UseVirtual.measureRef false defaultMeasureSize item (Some (element h)) w
  | None => w
  end.

(** One run of the hook body as the test suite sets it up: default
    estimator (50), key function and range extractor, no padding, a
    viewport of 200. *)
Definition renderList (size : nat) (overscan : Z) (scrollOffset : Q)
    (w : World.t) : outcome (World.t * list VirtualItem.t) :=
  UseVirtual.render size defaultEstimateSize overscan 0 0 defaultKeyExtractor
    defaultRangeExtractor true 200 scrollOffset w.

(** Every rendered item reports an element of height [h]. *)
Definition reportAll (items : list VirtualItem.t) (h : Q) (w : World.t) : World.t :=
  foldl (fun w item =>
           UseVirtual.measureRef false defaultMeasureSize item (Some (element h)) w)
        w items.

(** The indices of the rendered items, if the run ends. *)
Definition indicesOf (run : outcome (World.t * list VirtualItem.t))
    : option (list nat) :=
  match run with
  | Returns (_, items) => Some (VirtualItem.i <$> items)
  | _ => None
  end.

(** Render, let every item report a height of 25, and so on, [rounds]
    times; then render at [scrollOffset]. *)
Fixpoint settle (rounds : nat) (size : nat) (overscan : Z) (scrollOffset : Q)
    (w : World.t) : outcome (World.t * list VirtualItem.t) :=
  match rounds with
  | O => renderList size overscan scrollOffset w
  | S rounds' =>
      r ←! renderList size overscan scrollOffset w;
      settle rounds' size overscan scrollOffset (reportAll (snd r) 25 (fst r))
  end.

(** The spans a run ends with, if it ends. *)
Definition spansOf (run : outcome (World.t * list VirtualItem.t))
    : option (array Measurement.t) :=
  match run with
  | Returns (w, _) => Some (Latest.measurements (World.latestRef w))
  | _ => None
  end.

(** The spans of a first render with [paddingStart = 0] and nothing
    measured. *)
Definition firstSpans : array Measurement.t :=
  UseVirtual.measurements 2 defaultEstimateSize 0 defaultKeyExtractor ∅ [] [].

(** The spans derived next, once item 1 has reported a size of 30 and
    [paddingStart] has become 10. *)
Definition stalePaddingSpans : array Measurement.t :=
  UseVirtual.measurements 2 defaultEstimateSize 10 defaultKeyExtractor
    {["1" := 30%Q]} [1] firstSpans.

(** The run that leads there: render, item 1 reports 30, render with the
    new padding. *)
Definition paddingChange : outcome (World.t * list VirtualItem.t) :=
  r ←! render 0 (World.initial 0);
  render 10 (report (snd r) 1 30 (fst r)).

(** The spans once item 0 has been measured at 20. *)
Definition measuredSpans : array Measurement.t :=
  UseVirtual.measurements 2 defaultEstimateSize 0 defaultKeyExtractor
    {["0" := 20%Q]} [] [].

(** The spans derived after item 1 has reported 30 and [measure] has
    then cleared the cache, both before the next render. *)
Definition resetSpans : array Measurement.t :=
  UseVirtual.measurements 2 defaultEstimateSize 0 defaultKeyExtractor
    ∅ [1] measuredSpans.

(** The run that leads there. *)
Definition resetAfterReport : outcome (World.t * list VirtualItem.t) :=
  r1 ←! render 0 (World.initial 0);
  r2 ←! render 0 (report (snd r1) 0 20 (fst r1));
  render 0 (UseVirtual.measure (report (snd r2) 1 30 (fst r2))).

(** Three spans of sizes 0, 0 and 10: the first three start at 0. *)
Definition tiedSpans : array Measurement.t :=
  UseVirtual.measurements 3 (fun i => if (i <? 2)%nat then 0%Q else 10%Q) 0
    defaultKeyExtractor ∅ [] [].

End Scenario.

(** * Verification *)

(** ** JavaScript arrays *)

Section JsArrayFacts.
Context {A : Type}.
Implicit Types (a : array A) (x : A) (i j : nat) (z : Z).

Lemma get_negative a z : (z < 0)%Z → JsArray.get a z = None.
Proof. intros Hz. unfold JsArray.get. by rewrite (proj2 (Z.ltb_lt _ _) Hz). Qed.

Lemma get_nat a i : JsArray.get a (Z.of_nat i) = mjoin (a !! i).
Proof.
  unfold JsArray.get.
  destruct (Z.ltb_spec (Z.of_nat i) 0) as [Hneg|_]; [lia|].
  by rewrite Nat2Z.id.
Qed.

Lemma get_past_end a i : length a ≤ i → JsArray.get a (Z.of_nat i) = None.
Proof. intros Hi. rewrite get_nat. by rewrite lookup_ge_None_2. Qed.

Lemma get_Some_lt a i x : JsArray.get a (Z.of_nat i) = Some x → i < length a.
Proof.
  intros Hget. destruct (decide (i < length a)) as [|Hge]; [done|].
  rewrite get_past_end in Hget; [done | lia].
Qed.

Lemma length_set a i x : length a ≤ i → length (JsArray.set a i x) = S i.
Proof.
  intros Hi. unfold JsArray.set. rewrite decide_False by lia.
  rewrite !length_app, length_replicate. simpl. lia.
Qed.

Lemma get_set_eq a i x :
  length a ≤ i → JsArray.get (JsArray.set a i x) (Z.of_nat i) = Some x.
Proof.
  intros Hi. rewrite get_nat. unfold JsArray.set. rewrite decide_False by lia.
  rewrite lookup_app_r by lia.
  rewrite lookup_app_r by (rewrite length_replicate; lia).
  rewrite length_replicate.
  by replace (i - length a - (i - length a)) with 0 by lia.
Qed.

Lemma get_set_below a i x z :
  length a ≤ i → (z < Z.of_nat i)%Z →
  JsArray.get (JsArray.set a i x) z = JsArray.get a z.
Proof.
  intros Hi Hz. destruct (Z.ltb_spec z 0) as [Hneg|Hpos].
  { by rewrite !get_negative. }
  rewrite <- (Z2Nat.id z) by done. rewrite !get_nat.
  unfold JsArray.set. rewrite decide_False by lia.
  destruct (decide (Z.to_nat z < length a)) as [Hin|Hout].
  - by rewrite lookup_app_l.
  - rewrite lookup_app_r by lia.
    rewrite lookup_app_l by (rewrite length_replicate; lia).
    rewrite lookup_replicate_2 by lia.
    by rewrite lookup_ge_None_2 by lia.
Qed.

Lemma get_slice0 a i z :
  (z < Z.of_nat i)%Z → JsArray.get (JsArray.slice0 a i) z = JsArray.get a z.
Proof.
  intros Hz. destruct (Z.ltb_spec z 0) as [Hneg|Hpos].
  { by rewrite !get_negative. }
  rewrite <- (Z2Nat.id z) by done. rewrite !get_nat.
  unfold JsArray.slice0. by rewrite lookup_take_lt by lia.
Qed.

Lemma length_slice0 a i : length (JsArray.slice0 a i) ≤ i.
Proof. unfold JsArray.slice0. rewrite length_take. lia. Qed.

Lemma get_dense (l : list A) i : JsArray.get (JsArray.dense l) (Z.of_nat i) = l !! i.
Proof.
  rewrite get_nat. unfold JsArray.dense. rewrite list_lookup_fmap.
  by destruct (l !! i).
Qed.
End JsArrayFacts.


(** ** Number comparisons and the middle index *)

Lemma Num_lt_true x y : Num.lt x y = true ↔ (x < y)%Q.
Proof.
  unfold Num.lt. rewrite negb_true_iff, <- not_true_iff_false, Qle_bool_iff.
  split; [apply Qnot_le_lt | apply Qlt_not_le].
Qed.

Lemma Num_lt_false x y : Num.lt x y = false ↔ (y <= x)%Q.
Proof. unfold Num.lt. by rewrite negb_false_iff, Qle_bool_iff. Qed.

Lemma toInt32_small z : (- 2 ^ 31 ≤ z < 2 ^ 31)%Z → Num.toInt32 z = z.
Proof. intros Hz. unfold Num.toInt32. rewrite Z.mod_small; lia. Qed.

Lemma bitOr_zero z : (0 ≤ z < 2 ^ 31)%Z → Num.bitOr z 0 = z.
Proof.
  intros Hz. unfold Num.bitOr.
  rewrite (toInt32_small z) by lia. rewrite (toInt32_small 0) by lia.
  apply Z.lor_0_r.
Qed.

Lemma middle_between low high :
  (0 ≤ low)%Z → (low ≤ high)%Z → (high < 2 ^ 31)%Z →
  (low ≤ Num.bitOr (Z.quot (low + high) 2) 0 ≤ high)%Z.
Proof.
  intros Hlow Hle Hhigh.
  rewrite Z.quot_div_nonneg by lia.
  assert (low ≤ (low + high) / 2)%Z by (apply Z.div_le_lower_bound; lia).
  assert ((low + high) / 2 ≤ high)%Z by (apply Z.div_le_upper_bound; lia).
  rewrite bitOr_zero; lia.
Qed.

(** ** The binary search *)

(** The search among [n] values [f 0 .. f (n - 1)], sorted, that
    [getCurrentValue] returns without throwing. *)
Section BinarySearch.
Variable n : Z.
Variable f : Z → Q.
Variable getCurrentValue : Z → outcome Q.
Hypothesis n_small : (n ≤ 2 ^ 31)%Z.
Hypothesis get_in_range :
  ∀ z, (0 ≤ z < n)%Z → getCurrentValue z = Returns (f z).
Hypothesis f_sorted : ∀ x y, (0 ≤ x)%Z → (x ≤ y)%Z → (y < n)%Z → (f x <= f y)%Q.

(** The loop invariant: every value below [low] is less than [value],
    every value above [high] is greater. *)
Lemma findNearestBinarySearch_loop_spec value fuel low high :
  (0 ≤ low)%Z → (high < n)%Z → (low ≤ high + 1)%Z →
  Z.to_nat (high - low + 2) ≤ fuel →
  (∀ z, (0 ≤ z < low)%Z → (f z < value)%Q) →
  (∀ z, (high < z < n)%Z → (value < f z)%Q) →
  ∃ r, findNearestBinarySearch_loop fuel low high getCurrentValue value = Returns r
       ∧ nearest n f value r.
Proof.
  revert low high. induction fuel as [|fuel IH]; intros low high Hlow Hhigh Hle Hfuel Hbelow Habove.
  { lia. }
  cbn [findNearestBinarySearch_loop].
  destruct (Z.leb_spec low high) as [Hin|Hout].
  - pose proof (middle_between low high Hlow Hin ltac:(lia)) as Hmid.
    set (middle := Num.bitOr _ _) in *.
    rewrite get_in_range by lia. cbn [obind].
    destruct (Num.lt (f middle) value) eqn:Hlt.
    { apply Num_lt_true in Hlt. apply IH; try lia; [|done].
      intros z Hz. apply Qle_lt_trans with (f middle); [|done].
      apply f_sorted; lia. }
    apply Num_lt_false in Hlt.
    destruct (Num.lt value (f middle)) eqn:Hgt.
    { apply Num_lt_true in Hgt. apply IH; try lia; [done|].
      intros z Hz. apply Qlt_le_trans with (f middle); [done|].
      apply f_sorted; lia. }
    apply Num_lt_false in Hgt.
    exists middle. split; [done|]. left.
    assert (f middle == value) as Heq by (by apply Qle_antisym).
    split_and!; try lia; [done|].
    intros z Hz Hfz. split; [|done].
    apply Qle_antisym; [done|]. rewrite <- Heq. apply f_sorted; lia.
  - assert (low = high + 1)%Z as -> by lia.
    destruct (Z.ltb_spec 0 (high + 1)) as [Hpos|Hzero].
    + exists (high + 1 - 1)%Z. split; [done|]. left.
      replace (high + 1 - 1)%Z with high by lia.
      split_and!; try lia.
      * apply Qlt_le_weak, Hbelow. lia.
      * intros z Hz Hfz. exfalso.
        apply (Qlt_not_le _ _ (Habove z ltac:(lia)) Hfz).
    + exists 0%Z. split; [done|]. right. split; [done|].
      intros z Hz. apply Habove. lia.
Qed.

Lemma findNearestBinarySearch_spec value :
  (0 ≤ n)%Z →
  ∃ r, findNearestBinarySearch 0 (n - 1) getCurrentValue value = Returns r
       ∧ nearest n f value r.
Proof.
  intros Hn. unfold findNearestBinarySearch.
  apply findNearestBinarySearch_loop_spec; try lia; intros z Hz; lia.
Qed.
End BinarySearch.


(** ** The derivation of spans *)

Section Derivation.
Variable estimateSize : nat → Q.
Variable paddingStart : Q.
Variable keyExtractor : nat → Key.
Variable measuredCache : gmap string Q.

Local Abbreviation loop := (UseVirtual.measurements_loop estimateSize paddingStart keyExtractor measuredCache).

(** What the loop does to an array that ends at or before [i]: it leaves
    the entries below [i] alone and fills the [count] entries from [i]
    on. *)
Lemma measurements_loop_spec count i a :
  length a ≤ i →
  (∀ z, (z < Z.of_nat i)%Z → JsArray.get (loop count i a) z = JsArray.get a z) ∧
  (∀ j, i ≤ j < i + count →
    ∃ m, JsArray.get (loop count i a) (Z.of_nat j) = Some m ∧
      Measurement.key m = keyExtractor j ∧
      Measurement.index m = j ∧
      Measurement.size m = expectedSize estimateSize keyExtractor measuredCache j ∧
      Measurement.end_ m = (Measurement.start m + Measurement.size m)%Q ∧
      Measurement.start m = startAfter paddingStart (loop count i a) j) ∧
  length (loop count i a) = match count with O => length a | S _ => i + count end.
Proof.
  revert i a. induction count as [|count IH]; intros i a Hlen.
  { simpl. split_and!; [done| intros j Hj; lia | done]. }
  cbn [UseVirtual.measurements_loop].
  set (x := Measurement.mk _ _ _ _ _).
  destruct (IH (S i) (JsArray.set a i x)) as (Hbelow & Hfilled & Hlength).
  { rewrite length_set; lia. }
  split_and!.
  - intros z Hz. rewrite Hbelow by lia. by apply get_set_below.
  - intros j Hj. destruct (decide (j = i)) as [->|Hne].
    + exists x. rewrite Hbelow by lia. rewrite get_set_eq by done.
      split_and!; try done.
      unfold startAfter. rewrite Hbelow by lia.
      rewrite get_set_below by (done || lia). done.
    + apply Hfilled. lia.
  - rewrite Hlength. rewrite length_set by done. destruct count; lia.
Qed.

Local Abbreviation legacy_loop :=
  (Legacy.measurements_loop estimateSize paddingStart keyExtractor measuredCache).

Lemma legacy_measurements_loop_spec count i a :
  length a ≤ i →
  (∀ z, (z < Z.of_nat i)%Z → JsArray.get (legacy_loop count i a) z = JsArray.get a z) ∧
  (∀ j, i ≤ j < i + count →
    ∃ m, JsArray.get (legacy_loop count i a) (Z.of_nat j) = Some m ∧
      Legacy.Measurement.index m = j ∧
      Legacy.Measurement.size m = expectedSize estimateSize keyExtractor measuredCache j ∧
      Legacy.Measurement.end_ m
        = (Legacy.Measurement.start m + Legacy.Measurement.size m)%Q ∧
      Legacy.Measurement.start m = startAfter paddingStart (legacy_loop count i a) j) ∧
  length (legacy_loop count i a) = match count with O => length a | S _ => i + count end.
Proof.
  revert i a. induction count as [|count IH]; intros i a Hlen.
  { simpl. split_and!; [done| intros j Hj; lia | done]. }
  cbn [Legacy.measurements_loop].
  set (x := Legacy.Measurement.mk _ _ _ _).
  destruct (IH (S i) (JsArray.set a i x)) as (Hbelow & Hfilled & Hlength).
  { rewrite length_set; lia. }
  split_and!.
  - intros z Hz. rewrite Hbelow by lia. by apply get_set_below.
  - intros j Hj. destruct (decide (j = i)) as [->|Hne].
    + exists x. rewrite Hbelow by lia. rewrite get_set_eq by done.
      split_and!; try done.
      unfold startAfter. rewrite Hbelow by lia.
      rewrite get_set_below by (done || lia). done.
    + apply Hfilled. lia.
  - rewrite Hlength. rewrite length_set by done. destruct count; lia.
Qed.

Variable size : nat.

(** What one run of the [measurements] memo of [index.ts] produces. *)
Lemma measurements_spec pending previous :
  let min := UseVirtual.minPending pending in
  let spans := UseVirtual.measurements size estimateSize paddingStart keyExtractor
                 measuredCache pending previous in
  (∀ z, (z < Z.of_nat min)%Z → JsArray.get spans z = JsArray.get previous z) ∧
  (∀ j, min ≤ j < size →
    ∃ m, JsArray.get spans (Z.of_nat j) = Some m ∧
      Measurement.key m = keyExtractor j ∧
      Measurement.index m = j ∧
      Measurement.size m = expectedSize estimateSize keyExtractor measuredCache j ∧
      Measurement.end_ m = (Measurement.start m + Measurement.size m)%Q ∧
      Measurement.start m = startAfter paddingStart spans j).
Proof.
  intros min spans. subst spans. unfold UseVirtual.measurements. fold min.
  destruct (measurements_loop_spec (size - min) min (JsArray.slice0 previous min))
    as (Hbelow & Hfilled & _).
  { apply length_slice0. }
  split.
  - intros z Hz. rewrite Hbelow by done. by apply get_slice0.
  - intros j Hj. apply Hfilled. lia.
Qed.

Lemma measurements_contiguous pending previous :
  contiguous paddingStart (UseVirtual.minPending pending) previous →
  contiguous paddingStart size
    (UseVirtual.measurements size estimateSize paddingStart keyExtractor
       measuredCache pending previous).
Proof.
  intros Hprev.
  destruct (measurements_spec pending previous) as (Hbelow & Hfilled).
  set (min := UseVirtual.minPending pending) in *.
  set (spans := UseVirtual.measurements _ _ _ _ _ _ _) in *.
  assert (Hexists : ∀ j, j < size ∨ j < min → is_Some (JsArray.get spans (Z.of_nat j))).
  { intros j Hj. destruct (decide (j < min)) as [Hlt|Hge].
    - destruct (Hprev j Hlt) as (m & Hm & _). rewrite Hbelow by lia. eauto.
    - destruct (Hfilled j) as (m & Hm & _); [lia | eauto]. }
  intros i Hi. destruct (decide (i < min)) as [Hlt|Hge].
  - destruct (Hprev i Hlt) as (m & Hm & Hend & Hfirst & Hnext).
    exists m. rewrite Hbelow by lia. split_and!; try done.
    intros Hpos. destruct (Hnext Hpos) as (p & Hp & Hstart).
    exists p. rewrite Hbelow by lia. done.
  - destruct (Hfilled i) as (m & Hm & _ & _ & _ & Hend & Hstart); [lia|].
    exists m. split_and!; try done.
    + cbn. by rewrite Hend.
    + intros ->. cbn. rewrite Hstart. unfold startAfter.
      by rewrite get_negative by lia.
    + intros Hpos. destruct (Hexists (i - 1)) as [p Hp]; [lia|].
      replace (Z.of_nat (i - 1)) with (Z.of_nat i - 1)%Z in Hp by lia.
      exists p. split; [done|]. cbn. rewrite Hstart. unfold startAfter.
      by rewrite Hp.
Qed.

Lemma legacy_measurements_spec :
  let spans := Legacy.measurements size estimateSize paddingStart keyExtractor
                 measuredCache in
  length spans = size ∧
  ∀ j, j < size →
    ∃ m, JsArray.get spans (Z.of_nat j) = Some m ∧
      Legacy.Measurement.index m = j ∧
      Legacy.Measurement.size m = expectedSize estimateSize keyExtractor measuredCache j ∧
      Legacy.Measurement.end_ m
        = (Legacy.Measurement.start m + Legacy.Measurement.size m)%Q ∧
      Legacy.Measurement.start m = startAfter paddingStart spans j.
Proof.
  intros spans. subst spans. unfold Legacy.measurements.
  destruct (legacy_measurements_loop_spec size 0 []) as (_ & Hfilled & Hlength).
  { simpl. lia. }
  split.
  - rewrite Hlength. by destruct size.
  - intros j Hj. apply Hfilled. lia.
Qed.

Lemma legacy_measurements_contiguous :
  contiguous paddingStart size
    (Legacy.measurements size estimateSize paddingStart keyExtractor measuredCache).
Proof.
  destruct legacy_measurements_spec as (_ & Hfilled).
  set (spans := Legacy.measurements _ _ _ _ _) in *.
  intros i Hi.
  destruct (Hfilled i Hi) as (m & Hm & _ & _ & Hend & Hstart).
  exists m. split_and!; try done.
  - cbn. by rewrite Hend.
  - intros ->. cbn. rewrite Hstart. unfold startAfter. by rewrite get_negative by lia.
  - intros Hpos. destruct (Hfilled (i - 1)) as (p & Hp & _); [lia|].
    replace (Z.of_nat (i - 1)) with (Z.of_nat i - 1)%Z in Hp by lia.
    exists p. split; [done|]. cbn. rewrite Hstart. unfold startAfter. by rewrite Hp.
Qed.
End Derivation.


(** ** The range locator *)

Lemma get_Some_range {A} (a : array A) z x :
  JsArray.get a z = Some x → (0 ≤ z < Z.of_nat (length a))%Z.
Proof.
  intros Hget. destruct (Z.ltb_spec z 0) as [Hneg|Hpos].
  { by rewrite get_negative in Hget. }
  rewrite <- (Z2Nat.id z) in Hget by done.
  apply get_Some_lt in Hget. lia.
Qed.

(** [calculateRange] on an array without holes. *)
Section Locate.
Variable spans : array Measurement.t.
Hypothesis dense : noHoles spans.

Local Abbreviation N := (Z.of_nat (length spans)).

(** The forward scan stops at the last index or at the first span that
    ends at or past [limit]. *)
Lemma calculateRange_end_spec limit remaining e :
  (0 ≤ e)%Z → (e + Z.of_nat remaining = N - 1)%Z →
  ∃ e', calculateRange_end spans limit remaining e = Returns e' ∧
    (e ≤ e' ≤ N - 1)%Z ∧ (e' = (N - 1)%Z ∨ (limit <= endAt spans e')%Q).
Proof.
  revert e. induction remaining as [|remaining IH]; intros e He Hsum.
  { exists e. cbn. split_and!; [done | lia | lia | left; lia]. }
  cbn [calculateRange_end].
  destruct (dense e) as [m Hm]; [lia|]. rewrite Hm. cbn [deref obind].
  destruct (Num.lt (Measurement.end_ m) limit) eqn:Hlt.
  - destruct (IH (e + 1)%Z) as (e' & Hrun & Hrange & Hstop); [lia | lia |].
    exists e'. split_and!; [done | lia | lia | done].
  - apply Num_lt_false in Hlt.
    exists e. split_and!; [done | lia | lia |]. right.
    unfold endAt. by rewrite Hm.
Qed.

Hypothesis small : (N ≤ 2 ^ 31)%Z.
Hypothesis sorted : sortedStarts spans.

Lemma calculateRange_spec outerSize scrollOffset totalSize :
  ∃ s e,
    calculateRange (Latest.mk outerSize scrollOffset spans totalSize) = Returns (s, e) ∧
    nearest N (startAt spans) scrollOffset s ∧
    (s ≤ e)%Z ∧ (e ≤ Z.max s (N - 1))%Z ∧
    (e = (N - 1)%Z ∨ N = 0%Z ∨ (scrollOffset + outerSize <= endAt spans e)%Q).
Proof.
  unfold calculateRange. cbn [Latest.measurements Latest.outerSize Latest.scrollOffset].
  set (getOffset := fun index : Z => obind _ _).
  destruct (findNearestBinarySearch_spec N (startAt spans) getOffset small)
    with (value := scrollOffset) as (s & Hsearch & Hnearest).
  - intros z Hz. subst getOffset. cbn beta. unfold startAt.
    destruct (dense z Hz) as [m ->]. done.
  - intros x y Hx Hxy Hy. unfold startAt.
    destruct (dense x) as [mx Hmx]; [lia|].
    destruct (dense y) as [my Hmy]; [lia|].
    rewrite Hmx, Hmy. cbn. eapply sorted; eauto.
  - lia.
  - rewrite Hsearch. cbn [obind].
    destruct (decide (N = 0%Z)) as [Hempty|Hne].
    + assert (s = 0%Z) as ->.
      { destruct Hnearest as [(Hs & _)|(Hs & _)]; lia. }
      replace (Z.to_nat (N - 1 - 0)) with 0%nat by lia. cbn.
      exists 0%Z, 0%Z. split_and!; try done; try lia.
    + assert (0 ≤ s < N)%Z as Hs.
      { destruct Hnearest as [(Hs & _)|(Hs & _)]; lia. }
      destruct (calculateRange_end_spec (scrollOffset + outerSize)%Q
                  (Z.to_nat (N - 1 - s)) s) as (e & Hrun & Hrange & Hstop);
        [lia | lia |].
      rewrite Hrun. cbn [obind]. exists s, e.
      split_and!; try done; try lia.
      destruct Hstop; [by left | by right; right].
Qed.
End Locate.


(** ** Consequences of the span invariant *)

(** Spans that satisfy the invariant throughout, with sizes that are
    not negative. *)
Section Contiguity.
Variable paddingStart : Q.
Variable spans : array Measurement.t.
Hypothesis chain : contiguous paddingStart (length spans) spans.
Hypothesis sizes : nonNegativeSizes spans.

Lemma contiguous_noHoles : noHoles spans.
Proof.
  intros z Hz. destruct (chain (Z.to_nat z)) as (m & Hm & _); [lia|].
  rewrite Z2Nat.id in Hm by lia. eauto.
Qed.

Lemma contiguous_step z m p :
  JsArray.get spans z = Some p → JsArray.get spans (z + 1) = Some m →
  Measurement.start m == Measurement.end_ p.
Proof.
  intros Hp Hm. pose proof (get_Some_range _ _ _ Hp) as Hz.
  pose proof (get_Some_range _ _ _ Hm) as Hz'.
  destruct (chain (Z.to_nat (z + 1))) as (m' & Hm' & _ & _ & Hnext); [lia|].
  rewrite Z2Nat.id in Hm' by lia.
  destruct Hnext as (p' & Hp' & Hstart); [lia|].
  rewrite Z2Nat.id in Hp' by lia.
  replace (z + 1 - 1)%Z with z in Hp' by lia.
  by simplify_eq.
Qed.

Lemma contiguous_end z m :
  JsArray.get spans z = Some m →
  Measurement.end_ m == Measurement.start m + Measurement.size m.
Proof.
  intros Hm. pose proof (get_Some_range _ _ _ Hm) as Hz.
  destruct (chain (Z.to_nat z)) as (m' & Hm' & Hend & _); [lia|].
  rewrite Z2Nat.id in Hm' by lia. by simplify_eq.
Qed.

(** A span ends at or before the start of every later span. *)
Lemma end_le_later_start k : ∀ i mi mj,
  JsArray.get spans i = Some mi →
  JsArray.get spans (i + 1 + Z.of_nat k) = Some mj →
  (Measurement.end_ mi <= Measurement.start mj)%Q.
Proof.
  induction k as [|k IH]; intros i mi mj Hi Hj.
  - rewrite Z.add_0_r in Hj. rewrite (contiguous_step i mj mi Hi Hj). apply Qle_refl.
  - pose proof (get_Some_range _ _ _ Hi). pose proof (get_Some_range _ _ _ Hj).
    destruct (contiguous_noHoles (i + 1 + Z.of_nat k)%Z) as [mk Hk]; [lia|].
    replace (i + 1 + Z.of_nat (S k))%Z with (i + 1 + Z.of_nat k + 1)%Z in Hj by lia.
    pose proof (IH i mi mk Hi Hk) as Hle.
    pose proof (contiguous_step _ _ _ Hk Hj) as Hstep.
    pose proof (contiguous_end _ _ Hk) as Hend.
    pose proof (sizes _ _ Hk) as Hsize.
    lra.
Qed.

Lemma end_le_start i j mi mj :
  (i < j)%Z → JsArray.get spans i = Some mi → JsArray.get spans j = Some mj →
  (Measurement.end_ mi <= Measurement.start mj)%Q.
Proof.
  intros Hij Hi Hj. apply (end_le_later_start (Z.to_nat (j - i - 1)) i); [done|].
  by replace (i + 1 + Z.of_nat (Z.to_nat (j - i - 1)))%Z with j by lia.
Qed.

Lemma contiguous_sortedStarts : sortedStarts spans.
Proof.
  intros i j mi mj Hij Hi Hj. destruct (decide (i = j)) as [->|Hne].
  - simplify_eq. apply Qle_refl.
  - pose proof (end_le_start i j mi mj ltac:(lia) Hi Hj).
    pose proof (contiguous_end _ _ Hi). pose proof (sizes _ _ Hi). lra.
Qed.
End Contiguity.


(** ** The derived spans: claims C1 to C3 *)

(** Property X21.  Where the span invariant holds.  Derived from scratch
    -- always so in [src/index.js], and in [index.ts] whenever no measured
    index is pending -- the spans satisfy, for every item count,
    estimator, key function, padding and measured cache: [Span[0].start]
    is [paddingStart], [Span[i].start] is [Span[i-1].end] for [i > 0], and
    [Span[i].end] is [Span[i].start + Span[i].size] for every [i] below
    the item count.  An incremental derivation of [index.ts] yields such
    spans if the previous spans below the smallest pending index are such
    spans for the current [paddingStart]. *)
Theorem measurements_spans_contiguous (size : nat) (estimateSize : nat → Q)
    (keyExtractor : nat → Key) (paddingStart : Q)
    (measuredCache : gmap string Q) :
  contiguous paddingStart size
    (Legacy.measurements size estimateSize paddingStart keyExtractor measuredCache) ∧
  (∀ previous,
     contiguous paddingStart size
       (UseVirtual.measurements size estimateSize paddingStart keyExtractor
          measuredCache [] previous)) ∧
  (∀ pending previous,
     contiguous paddingStart (UseVirtual.minPending pending) previous →
     contiguous paddingStart size
       (UseVirtual.measurements size estimateSize paddingStart keyExtractor
          measuredCache pending previous)).
Proof.
  split_and!.
  - apply legacy_measurements_contiguous.
  - intros previous. apply measurements_contiguous.
    intros i Hi. cbn in Hi. lia.
  - intros pending previous. apply measurements_contiguous.
Qed.

(** The incremental case at work: item 1 of three reports a size of 30,
    the first span is kept, the other two are derived anew. *)
Lemma measurements_spans_contiguous_witness :
  contiguous 0 3
    (UseVirtual.measurements 3 defaultEstimateSize 0 defaultKeyExtractor
       {["1" := 30%Q]} [1]
       (UseVirtual.measurements 3 defaultEstimateSize 0 defaultKeyExtractor ∅ [] [])).
Proof.
  apply (proj2 (proj2 (measurements_spans_contiguous 3 defaultEstimateSize
                         defaultKeyExtractor 0 {["1" := 30%Q]}))).
  intros i Hi. assert (i = 0) as -> by (cbn in Hi; lia).
  exists (Measurement.mk (KeyNumber 0) 0 0 50 50).
  split_and!; [vm_compute; reflexivity | reflexivity | reflexivity | lia].
Defined.

(** Claim C1 on [index.ts], at two items whose [paddingStart] changes from
    0 to 10 while index 1 is pending (item 1 has reported a size of 30).
    The [measurements] memo runs again -- [paddingStart] is one of its
    dependencies -- but keeps the spans below the smallest pending index:
    the first span still starts at 0, not at [paddingStart], and the
    invariant of the claim fails.  The same memo with nothing pending, and
    [src/index.js], derive the claimed spans from the same options and
    cache: the first span starts at 10. *)
Theorem stale_prefix_ignores_paddingStart :
  let previous :=
    UseVirtual.measurements 2 defaultEstimateSize 0 defaultKeyExtractor ∅ [] [] in
  let incremental :=
    UseVirtual.measurements 2 defaultEstimateSize 10 defaultKeyExtractor
      {["1" := 30%Q]} [1] previous in
  let full :=
    UseVirtual.measurements 2 defaultEstimateSize 10 defaultKeyExtractor
      {["1" := 30%Q]} [] previous in
  let legacy :=
    Legacy.measurements 2 defaultEstimateSize 10 defaultKeyExtractor
      {["1" := 30%Q]} in
  Scenario.spansOf Scenario.paddingChange = Some incremental ∧
  JsArray.get incremental 0 = Some (Measurement.mk (KeyNumber 0) 0 0 50 50) ∧
  ¬ contiguous 10 2 incremental ∧
  JsArray.get full 0 = Some (Measurement.mk (KeyNumber 0) 0 10 60 50) ∧
  contiguous 10 2 full ∧
  JsArray.get legacy 0 = Some (Legacy.Measurement.mk 0 10 50 60) ∧
  contiguous 10 2 legacy.
Proof.
  intros previous incremental full legacy. split_and!.
  - vm_compute. reflexivity.
  - vm_compute. reflexivity.
  - intros Hchain. destruct (Hchain 0) as (m & Hm & _ & Hstart & _); [lia|].
    vm_compute in Hm. injection Hm as <-.
    specialize (Hstart eq_refl). vm_compute in Hstart. discriminate.
  - vm_compute. reflexivity.
  - apply measurements_contiguous. intros i Hi. cbn in Hi. lia.
  - vm_compute. reflexivity.
  - apply legacy_measurements_contiguous.
Qed.

(** The spans of that input arise from a run of the hook. *)
Lemma paddingChange_spans :
  Scenario.spansOf Scenario.paddingChange = Some Scenario.stalePaddingSpans
  ∧ Scenario.stalePaddingSpans
    = UseVirtual.measurements 2 defaultEstimateSize 10 defaultKeyExtractor
        {["1" := 30%Q]} [1]
        (UseVirtual.measurements 2 defaultEstimateSize 0 defaultKeyExtractor ∅ [] []).
Proof. split; [vm_compute; reflexivity | reflexivity]. Qed.

(** With no item, the [|| 0] fallback is taken whatever the spans are. *)
Lemma totalSize_no_items (paddingEnd : Q) (spans : array Measurement.t) :
  UseVirtual.totalSize 0 paddingEnd spans == paddingEnd.
Proof.
  unfold UseVirtual.totalSize. rewrite get_negative by lia. cbn. lra.
Qed.

Lemma legacy_totalSize_no_items (paddingEnd : Q) (spans : array Legacy.Measurement.t) :
  Legacy.totalSize 0 paddingEnd spans == paddingEnd.
Proof.
  unfold Legacy.totalSize. rewrite get_negative by lia. cbn. lra.
Qed.

(** With items, [totalSize] is the end of the last span plus
    [paddingEnd]. *)
Lemma totalSize_last (size : nat) (paddingEnd : Q) (spans : array Measurement.t)
    (last : Measurement.t) :
  JsArray.get spans (Z.of_nat size - 1) = Some last →
  UseVirtual.totalSize size paddingEnd spans == Measurement.end_ last + paddingEnd.
Proof.
  intros Hlast. unfold UseVirtual.totalSize. rewrite Hlast. cbn.
  destruct (Qeq_bool (Measurement.end_ last) 0) eqn:Hzero; [|reflexivity].
  apply Qeq_bool_eq in Hzero. rewrite Hzero. reflexivity.
Qed.

(** Claim C2 at [size = 0], [paddingStart = 10], [paddingEnd = 5]: the
    spans are empty, and [totalSize] is 5, not 15. *)
Theorem totalSize_without_items :
  UseVirtual.measurements 0 defaultEstimateSize 10 defaultKeyExtractor ∅ [] [] = [] ∧
  UseVirtual.totalSize 0 5
    (UseVirtual.measurements 0 defaultEstimateSize 10 defaultKeyExtractor ∅ [] []) == 5 ∧
  ¬ UseVirtual.totalSize 0 5
      (UseVirtual.measurements 0 defaultEstimateSize 10 defaultKeyExtractor ∅ [] [])
    == 10 + 5 ∧
  Legacy.totalSize 0 5
    (Legacy.measurements 0 defaultEstimateSize 10 defaultKeyExtractor ∅) == 5.
Proof.
  split_and!; [reflexivity | reflexivity | | reflexivity].
  intros Heq. vm_compute in Heq. discriminate.
Qed.

(** Property X22.  Where the measured size wins.  From the smallest
    pending index on -- from 0 when none is pending, and always in
    [src/index.js] -- the size of span [i] is the measured-cache entry
    under [keyExtractor(i)] when there is one and [estimateSize(i)]
    otherwise.  Below the smallest pending index, an incremental
    derivation of [index.ts] returns the spans of the previous derivation
    as they are. *)
Theorem measurements_sizes (size : nat) (estimateSize : nat → Q)
    (keyExtractor : nat → Key) (paddingStart : Q)
    (measuredCache : gmap string Q) :
  sizesFollowCache estimateSize keyExtractor measuredCache size
    (Legacy.measurements size estimateSize paddingStart keyExtractor measuredCache) ∧
  (∀ previous,
     sizesFollowCache estimateSize keyExtractor measuredCache size
       (UseVirtual.measurements size estimateSize paddingStart keyExtractor
          measuredCache [] previous)) ∧
  (∀ pending previous i,
     let spans :=
       UseVirtual.measurements size estimateSize paddingStart keyExtractor
         measuredCache pending previous in
     (UseVirtual.minPending pending ≤ i < size →
      ∃ m, JsArray.get spans (Z.of_nat i) = Some m ∧
        Measurement.size m == expectedSize estimateSize keyExtractor measuredCache i) ∧
     (i < UseVirtual.minPending pending →
      JsArray.get spans (Z.of_nat i) = JsArray.get previous (Z.of_nat i))).
Proof.
  split_and!.
  - destruct (legacy_measurements_spec estimateSize paddingStart keyExtractor
                measuredCache size) as (_ & Hfilled).
    intros i Hi. destruct (Hfilled i Hi) as (m & Hm & _ & Hsize & _).
    exists m. split; [done|]. cbn. by rewrite Hsize.
  - intros previous.
    destruct (measurements_spec estimateSize paddingStart keyExtractor
                measuredCache size [] previous) as (_ & Hfilled).
    intros i Hi. destruct (Hfilled i) as (m & Hm & _ & _ & Hsize & _).
    { cbn. lia. }
    exists m. split; [done|]. cbn. by rewrite Hsize.
  - intros pending previous i spans.
    destruct (measurements_spec estimateSize paddingStart keyExtractor
                measuredCache size pending previous) as (Hbelow & Hfilled).
    split.
    + intros Hi. destruct (Hfilled i Hi) as (m & Hm & _ & _ & Hsize & _).
      exists m. split; [done|]. by rewrite Hsize.
    + intros Hi. apply Hbelow. lia.
Qed.

(** With index 1 pending, span 2 takes its size from the cache entry
    under its key. *)
Lemma measurements_sizes_witness :
  ∃ m, JsArray.get
         (UseVirtual.measurements 3 defaultEstimateSize 0 defaultKeyExtractor
            {["2" := 30%Q]} [1]
            (UseVirtual.measurements 3 defaultEstimateSize 0 defaultKeyExtractor ∅ [] []))
         (Z.of_nat 2) = Some m
       ∧ Measurement.size m == 30.
Proof.
  destruct (proj2 (proj2 (measurements_sizes 3 defaultEstimateSize
              defaultKeyExtractor 0 {["2" := 30%Q]})) [1]
              (UseVirtual.measurements 3 defaultEstimateSize 0 defaultKeyExtractor ∅ [] [])
              2) as (Hfilled & _).
  destruct Hfilled as (m & Hm & Hsize); [cbn; lia|].
  exists m. split; [exact Hm | exact Hsize].
Defined.

(** Claim C3 on [index.ts], at two items: item 0 was measured at 20;
    item 1 then reports 30 and [measure] clears the cache before the next
    render.  The [measurements] memo runs again -- the cache is one of its
    dependencies -- but index 1 is pending, so span 0 is kept with size
    20 although the cache holds nothing under its key and its estimate is
    50.  The same memo with nothing pending, and [src/index.js], derive
    the claimed size from the same options and cache: 50. *)
Theorem kept_span_ignores_cache :
  let previous :=
    UseVirtual.measurements 2 defaultEstimateSize 0 defaultKeyExtractor
      {["0" := 20%Q]} [] [] in
  let incremental :=
    UseVirtual.measurements 2 defaultEstimateSize 0 defaultKeyExtractor ∅ [1]
      previous in
  let full :=
    UseVirtual.measurements 2 defaultEstimateSize 0 defaultKeyExtractor ∅ []
      previous in
  let legacy :=
    Legacy.measurements 2 defaultEstimateSize 0 defaultKeyExtractor ∅ in
  Scenario.spansOf Scenario.resetAfterReport = Some incremental ∧
  JsArray.get incremental 0 = Some (Measurement.mk (KeyNumber 0) 0 0 20 20) ∧
  expectedSize defaultEstimateSize defaultKeyExtractor ∅ 0 = 50%Q ∧
  ¬ sizesFollowCache defaultEstimateSize defaultKeyExtractor ∅ 2 incremental ∧
  JsArray.get full 0 = Some (Measurement.mk (KeyNumber 0) 0 0 50 50) ∧
  sizesFollowCache defaultEstimateSize defaultKeyExtractor ∅ 2 full ∧
  JsArray.get legacy 0 = Some (Legacy.Measurement.mk 0 0 50 50) ∧
  sizesFollowCache defaultEstimateSize defaultKeyExtractor ∅ 2 legacy.
Proof.
  intros previous incremental full legacy. split_and!.
  - vm_compute. reflexivity.
  - vm_compute. reflexivity.
  - reflexivity.
  - intros Hsizes. destruct (Hsizes 0) as (m & Hm & Hsize); [lia|].
    vm_compute in Hm. injection Hm as <-.
    vm_compute in Hsize. discriminate.
  - vm_compute. reflexivity.
  - destruct (measurements_spec defaultEstimateSize 0 defaultKeyExtractor ∅ 2 []
                previous) as (_ & Hfilled).
    intros i Hi. destruct (Hfilled i) as (m & Hm & _ & _ & Hsize & _); [cbn; lia|].
    exists m. split; [done|]. cbn. by rewrite Hsize.
  - vm_compute. reflexivity.
  - destruct (legacy_measurements_spec defaultEstimateSize 0 defaultKeyExtractor ∅ 2)
      as (_ & Hfilled).
    intros i Hi. destruct (Hfilled i Hi) as (m & Hm & _ & Hsize & _).
    exists m. split; [done|]. cbn. by rewrite Hsize.
Qed.

(** The spans of that input arise from a run of the hook. *)
Lemma resetAfterReport_spans :
  Scenario.spansOf Scenario.resetAfterReport = Some Scenario.resetSpans
  ∧ Scenario.resetSpans
    = UseVirtual.measurements 2 defaultEstimateSize 0 defaultKeyExtractor ∅ [1]
        (UseVirtual.measurements 2 defaultEstimateSize 0 defaultKeyExtractor
           {["0" := 20%Q]} [] []).
Proof. split; [vm_compute; reflexivity | reflexivity]. Qed.

(** ** Claims about the range locator *)

(** On a concrete array: split a lookup that succeeded into the possible
    indices and evaluate it. *)
Ltac at_index H :=
  let R := fresh "R" in
  pose proof (get_Some_range _ _ _ H) as R;
  match type of R with
  | context [length ?a] =>
      let n := eval vm_compute in (length a) in
      change (length a) with n in R
  end;
  match type of H with
  | JsArray.get _ ?z = Some _ =>
      let k := fresh "k" in
      destruct (Z.to_nat z) as [|[|[|k]]] eqn:?; [| | |lia];
      [replace z with 0%Z in * by lia
      |replace z with 1%Z in * by lia
      |replace z with 2%Z in * by lia];
      vm_compute in H; injection H as <-
  end.

(** Outside the interval that [calculateRange] returns nothing is
    visible: the spans before it end at or before the scroll offset, the
    spans after it start at or past the end of the viewport. *)
Lemma calculateRange_outside_hidden (paddingStart : Q)
    (spans : array Measurement.t) (N : nat) (scrollOffset outerSize totalSize : Q) :
  1 ≤ N → (Z.of_nat N ≤ 2 ^ 31)%Z → length spans = N →
  contiguous paddingStart N spans → nonNegativeSizes spans →
  ∃ s e,
    calculateRange (Latest.mk outerSize scrollOffset spans totalSize) = Returns (s, e) ∧
    (0 ≤ s)%Z ∧ (s ≤ e)%Z ∧ (e ≤ Z.of_nat N - 1)%Z ∧
    (∀ i m, JsArray.get spans i = Some m → (i < s)%Z →
       (Measurement.end_ m <= scrollOffset)%Q) ∧
    (∀ i m, JsArray.get spans i = Some m → (e < i)%Z →
       (scrollOffset + outerSize <= Measurement.start m)%Q).
Proof.
  intros Hpos Hsmall Hlen Hchain Hsizes. subst N.
  pose proof (contiguous_noHoles _ _ Hchain) as Hdense.
  pose proof (contiguous_sortedStarts _ _ Hchain Hsizes) as Hsorted.
  destruct (calculateRange_spec spans Hdense Hsmall Hsorted outerSize scrollOffset totalSize)
    as (s & e & Hrun & Hnearest & Hse & Hmax & Hstop).
  assert (0 ≤ s < Z.of_nat (length spans))%Z as Hs.
  { destruct Hnearest as [(? & _)|(-> & _)]; lia. }
  exists s, e. split_and!; [done | lia | lia | lia | |].
  - intros i m Hm Hlt.
    destruct Hnearest as [(_ & Hle & _)|(-> & _)].
    + destruct (Hdense s Hs) as [ms Hms].
      unfold startAt in Hle. rewrite Hms in Hle. cbn in Hle.
      pose proof (end_le_start _ _ Hchain Hsizes i s m ms Hlt Hm Hms). lra.
    + pose proof (get_Some_range _ _ _ Hm). lia.
  - intros i m Hm Hgt. pose proof (get_Some_range _ _ _ Hm) as Hi.
    destruct Hstop as [->|[Hzero|Hlimit]]; [lia | lia |].
    destruct (Hdense e ltac:(lia)) as [me Hme].
    unfold endAt in Hlimit. rewrite Hme in Hlimit. cbn in Hlimit.
    pose proof (end_le_start _ _ Hchain Hsizes e i me m Hgt Hme Hm). lra.
Qed.

(** Claim C4.  For spans that satisfy the span invariant with sizes that
    are not negative, derived from [N >= 1] items (at most 2^31 of them, so
    that [| 0] leaves the middle index alone), and for every scroll offset
    and viewport size: [calculateRange] returns an interval [{start..end}]
    within [[0, N - 1]] that contains every index [i] with
    [Span[i].end > scrollOffset] and
    [Span[i].start < scrollOffset + outerSize]. *)
Theorem calculateRange_covers_visible (paddingStart : Q)
    (spans : array Measurement.t) (N : nat) (scrollOffset outerSize totalSize : Q) :
  1 ≤ N → (Z.of_nat N ≤ 2 ^ 31)%Z → length spans = N →
  contiguous paddingStart N spans → nonNegativeSizes spans →
  ∃ s e,
    calculateRange (Latest.mk outerSize scrollOffset spans totalSize) = Returns (s, e) ∧
    (0 ≤ s)%Z ∧ (s ≤ e)%Z ∧ (e ≤ Z.of_nat N - 1)%Z ∧
    ∀ i m, JsArray.get spans i = Some m →
      (scrollOffset < Measurement.end_ m)%Q →
      (Measurement.start m < scrollOffset + outerSize)%Q →
      (s ≤ i ≤ e)%Z.
Proof.
  intros Hpos Hsmall Hlen Hchain Hsizes.
  destruct (calculateRange_outside_hidden paddingStart spans N scrollOffset outerSize
              totalSize Hpos Hsmall Hlen Hchain Hsizes)
    as (s & e & Hrun & Hs & Hse & He & Hbefore & Hafter).
  exists s, e. split_and!; try done.
  intros i m Hm Hend Hstart. split.
  - destruct (Z.le_gt_cases s i) as [|Hlt]; [done|].
    pose proof (Hbefore i m Hm Hlt). lra.
  - destruct (Z.le_gt_cases i e) as [|Hgt]; [done|].
    pose proof (Hafter i m Hm Hgt). lra.
Qed.

(** Spans derived from scratch have the length of the item count, and
    sizes that are not negative when neither the estimator nor the cache
    gives a negative one: the locator applies to them. *)
Lemma measurements_length (size : nat) (estimateSize : nat → Q)
    (keyExtractor : nat → Key) (paddingStart : Q)
    (measuredCache : gmap string Q) (previous : array Measurement.t) :
  length (UseVirtual.measurements size estimateSize paddingStart keyExtractor
            measuredCache [] previous) = size.
Proof.
  unfold UseVirtual.measurements. cbn [UseVirtual.minPending].
  destruct (measurements_loop_spec estimateSize paddingStart keyExtractor
              measuredCache (size - 0) 0 (JsArray.slice0 previous 0))
    as (_ & _ & Hlength).
  { apply length_slice0. }
  rewrite Hlength. unfold JsArray.slice0. rewrite length_take.
  destruct (size - 0) eqn:Hsize; lia.
Qed.

Lemma measurements_nonNegativeSizes (size : nat) (estimateSize : nat → Q)
    (keyExtractor : nat → Key) (paddingStart : Q)
    (measuredCache : gmap string Q) (previous : array Measurement.t) :
  (∀ i, (0 <= estimateSize i)%Q) →
  (∀ k measured, measuredCache !! k = Some measured → (0 <= measured)%Q) →
  nonNegativeSizes
    (UseVirtual.measurements size estimateSize paddingStart keyExtractor
       measuredCache [] previous).
Proof.
  intros Hestimate Hcache z m Hm.
  pose proof (get_Some_range _ _ _ Hm) as Hz. rewrite measurements_length in Hz.
  destruct (measurements_spec estimateSize paddingStart keyExtractor measuredCache
              size [] previous) as (_ & Hfilled).
  destruct (Hfilled (Z.to_nat z)) as (m' & Hm' & _ & _ & Hsize & _).
  { cbn. lia. }
  rewrite Z2Nat.id in Hm' by lia. simplify_eq. rewrite Hsize.
  unfold expectedSize. destruct (measuredCache !! _) eqn:Hlookup; eauto.
Qed.

Lemma derived_spans_outside_hidden (size : nat) (estimateSize : nat → Q)
    (keyExtractor : nat → Key) (paddingStart : Q)
    (measuredCache : gmap string Q) (previous : array Measurement.t)
    (scrollOffset outerSize totalSize : Q) :
  let spans :=
    UseVirtual.measurements size estimateSize paddingStart keyExtractor
      measuredCache [] previous in
  1 ≤ size → (Z.of_nat size ≤ 2 ^ 31)%Z →
  (∀ i, (0 <= estimateSize i)%Q) →
  (∀ k measured, measuredCache !! k = Some measured → (0 <= measured)%Q) →
  ∃ s e,
    calculateRange (Latest.mk outerSize scrollOffset spans totalSize) = Returns (s, e) ∧
    (0 ≤ s)%Z ∧ (s ≤ e)%Z ∧ (e ≤ Z.of_nat size - 1)%Z ∧
    (∀ i m, JsArray.get spans i = Some m → (i < s)%Z →
       (Measurement.end_ m <= scrollOffset)%Q) ∧
    (∀ i m, JsArray.get spans i = Some m → (e < i)%Z →
       (scrollOffset + outerSize <= Measurement.start m)%Q).
Proof.
  intros spans Hpos Hsmall Hestimate Hcache.
  apply (calculateRange_outside_hidden paddingStart spans size); try done.
  - apply measurements_length.
  - apply measurements_contiguous. intros i Hi. cbn in Hi. lia.
  - by apply measurements_nonNegativeSizes.
Qed.

(** The hypothesis on the sizes cannot be dropped: an estimator that
    gives item 1 the size -5 yields starts 0, 10, 5, and at scroll offset 7
    the locator stops at index 0 although span 2 reaches from 5 to 15. *)
Lemma negative_size_hides_span :
  calculateRange
    (Latest.mk 1 7
       (UseVirtual.measurements 3 (fun i => if (i =? 1)%nat then (-5)%Q else 10%Q) 0
          defaultKeyExtractor ∅ [] [])
       15) = Returns (0%Z, 0%Z) ∧
  ∃ m,
    JsArray.get
      (UseVirtual.measurements 3 (fun i => if (i =? 1)%nat then (-5)%Q else 10%Q) 0
         defaultKeyExtractor ∅ [] [])
      2 = Some m ∧
    (7 < Measurement.end_ m)%Q ∧ (Measurement.start m < 7 + 1)%Q.
Proof.
  split; [vm_compute; reflexivity|].
  exists (Measurement.mk (KeyNumber 2) 2 5 15 10).
  split_and!; [vm_compute; reflexivity | reflexivity | reflexivity].
Qed.

(** Claim C5, as amended.  For spans without holes (at most 2^31 of
    them) whose starts are sorted, monotonically non-decreasing, and for
    every scroll offset, the start index [s] that [calculateRange] takes
    from the binary search is 0 when no span starts at or before the
    offset; otherwise span [s] starts at or before the offset, and an index
    past [s] can do so only when its start and that of [s] both equal the
    offset.  So [s] is the greatest such index when the starts are
    strictly increasing. *)
Theorem calculateRange_start_nearest (spans : array Measurement.t)
    (scrollOffset outerSize totalSize : Q) :
  noHoles spans → (Z.of_nat (length spans) ≤ 2 ^ 31)%Z → sortedStarts spans →
  ∃ s e,
    calculateRange (Latest.mk outerSize scrollOffset spans totalSize) = Returns (s, e) ∧
    ((∀ i m, JsArray.get spans i = Some m → (scrollOffset < Measurement.start m)%Q) →
     s = 0%Z) ∧
    (∀ i m, JsArray.get spans i = Some m → (Measurement.start m <= scrollOffset)%Q →
       ∃ ms, JsArray.get spans s = Some ms ∧
         (Measurement.start ms <= scrollOffset)%Q ∧
         ((i ≤ s)%Z ∨ (Measurement.start m == scrollOffset ∧
                       Measurement.start ms == scrollOffset))) ∧
    (increasingStarts spans →
     ∀ i m, JsArray.get spans i = Some m → (Measurement.start m <= scrollOffset)%Q →
       (i ≤ s)%Z).
Proof.
  intros Hdense Hsmall Hsorted.
  destruct (calculateRange_spec spans Hdense Hsmall Hsorted outerSize scrollOffset totalSize)
    as (s & e & Hrun & Hnearest & _).
  exists s, e. split; [done|].
  assert (Hties : ∀ i m, JsArray.get spans i = Some m →
            (Measurement.start m <= scrollOffset)%Q →
            ∃ ms, JsArray.get spans s = Some ms ∧
              (Measurement.start ms <= scrollOffset)%Q ∧
              ((i ≤ s)%Z ∨ (Measurement.start m == scrollOffset ∧
                            Measurement.start ms == scrollOffset))).
  { intros i m Hm Hle. pose proof (get_Some_range _ _ _ Hm) as Hi.
    destruct Hnearest as [(Hs & Hsle & Hlater)|(_ & Hnone)].
    - destruct (Hdense s Hs) as [ms Hms]. exists ms.
      unfold startAt in Hsle, Hlater. rewrite Hms in Hsle, Hlater. cbn in Hsle, Hlater.
      split_and!; [done | done |].
      destruct (Z.le_gt_cases i s) as [|Hgt]; [by left | right].
      specialize (Hlater i ltac:(lia)). rewrite Hm in Hlater. cbn in Hlater. auto.
    - exfalso. specialize (Hnone i Hi). unfold startAt in Hnone.
      rewrite Hm in Hnone. cbn in Hnone. lra. }
  split_and!; [| done |].
  - intros Hall. destruct Hnearest as [(Hs & Hsle & _)|(-> & _)]; [|done].
    exfalso. destruct (Hdense s Hs) as [ms Hms].
    unfold startAt in Hsle. rewrite Hms in Hsle. cbn in Hsle.
    specialize (Hall s ms Hms). lra.
  - intros Hincreasing i m Hm Hle.
    destruct (Hties i m Hm Hle) as (ms & Hms & _ & [Hdone|[Heq Heqs]]); [done|].
    destruct (Z.le_gt_cases i s) as [|Hgt]; [done|]. exfalso.
    pose proof (Hincreasing s i ms m Hgt Hms Hm). lra.
Qed.

(** Three spans of 50 starting at 0, seen through a viewport of 30 at
    scroll offset 60. *)
Lemma calculateRange_covers_visible_witness :
  ∃ s e,
    calculateRange
      (Latest.mk 30 60
         (UseVirtual.measurements 3 defaultEstimateSize 0 defaultKeyExtractor ∅ [] [])
         150) = Returns (s, e) ∧
    (0 ≤ s)%Z ∧ (s ≤ e)%Z ∧ (e ≤ Z.of_nat 3 - 1)%Z ∧
    ∀ i m,
      JsArray.get
        (UseVirtual.measurements 3 defaultEstimateSize 0 defaultKeyExtractor ∅ [] [])
        i = Some m →
      (60 < Measurement.end_ m)%Q → (Measurement.start m < 60 + 30)%Q →
      (s ≤ i ≤ e)%Z.
Proof.
  apply (calculateRange_covers_visible 0
           (UseVirtual.measurements 3 defaultEstimateSize 0 defaultKeyExtractor ∅ [] [])
           3 60 30 150).
  - lia.
  - vm_compute. discriminate.
  - reflexivity.
  - intros i Hi. destruct i as [|[|[|i]]]; [| | |lia].
    + exists (Measurement.mk (KeyNumber 0) 0 0 50 50).
      split_and!; [reflexivity | reflexivity | reflexivity | lia].
    + exists (Measurement.mk (KeyNumber 1) 1 50 100 50).
      split_and!; [reflexivity | reflexivity | lia |].
      intros _. exists (Measurement.mk (KeyNumber 0) 0 0 50 50).
      split; reflexivity.
    + exists (Measurement.mk (KeyNumber 2) 2 100 150 50).
      split_and!; [reflexivity | reflexivity | lia |].
      intros _. exists (Measurement.mk (KeyNumber 1) 1 50 100 50).
      split; reflexivity.
  - intros z m Hm. at_index Hm; vm_compute; discriminate.
Defined.

(** The same three spans, located at scroll offset 60. *)
Lemma calculateRange_start_nearest_witness :
  ∃ s e,
    calculateRange
      (Latest.mk 30 60
         (UseVirtual.measurements 3 defaultEstimateSize 0 defaultKeyExtractor ∅ [] [])
         150) = Returns (s, e) ∧
    greatestStartAtMost
      (UseVirtual.measurements 3 defaultEstimateSize 0 defaultKeyExtractor ∅ [] [])
      60 s.
Proof.
  destruct (calculateRange_start_nearest
              (UseVirtual.measurements 3 defaultEstimateSize 0 defaultKeyExtractor ∅ [] [])
              60 30 150) as (s & e & Hrun & _ & Hties & Hgreatest).
  - intros z Hz.
    change (length _) with 3 in Hz.
    destruct (Z.to_nat z) as [|[|[|k]]] eqn:Hk; [| | |lia].
    + replace z with 0%Z by lia. vm_compute. eauto.
    + replace z with 1%Z by lia. vm_compute. eauto.
    + replace z with 2%Z by lia. vm_compute. eauto.
  - vm_compute. discriminate.
  - intros i j mi mj Hij Hi Hj. at_index Hi; at_index Hj; first [lia | vm_compute; discriminate].
  - exists s, e. split; [exact Hrun|]. split.
    + destruct (Hties 0%Z (Measurement.mk (KeyNumber 0) 0 0 50 50)) as (ms & Hms & Hle & _).
      * reflexivity.
      * vm_compute. discriminate.
      * exists ms. split; [exact Hms | exact Hle].
    + apply Hgreatest.
      intros i j mi mj Hij Hi Hj. at_index Hi; at_index Hj; first [lia | reflexivity].
Defined.

(** Claim C5 fails as stated: three spans of sizes 0, 0 and 10 all start
    at 0, sorted.  At scroll offset 0 the search stops at the middle index
    1, whose start equals the offset; index 2 also starts at 0. *)
Lemma tied_starts_not_greatest :
  sortedStarts
    (UseVirtual.measurements 3 (fun i => if (i <? 2)%nat then 0%Q else 10%Q) 0
       defaultKeyExtractor ∅ [] []) ∧
  calculateRange
    (Latest.mk 100 0
       (UseVirtual.measurements 3 (fun i => if (i <? 2)%nat then 0%Q else 10%Q) 0
          defaultKeyExtractor ∅ [] [])
       10) = Returns (1%Z, 2%Z) ∧
  ¬ greatestStartAtMost
      (UseVirtual.measurements 3 (fun i => if (i <? 2)%nat then 0%Q else 10%Q) 0
         defaultKeyExtractor ∅ [] [])
      0 1.
Proof.
  split_and!.
  - intros i j mi mj Hij Hi Hj. at_index Hi; at_index Hj; first [lia | vm_compute; discriminate].
  - vm_compute. reflexivity.
  - intros (_ & Hgreatest).
    specialize (Hgreatest 2%Z (Measurement.mk (KeyNumber 2) 2 0 10 10)).
    assert (2 ≤ 1)%Z; [|lia].
    apply Hgreatest; [reflexivity | vm_compute; discriminate].
Qed.

(** ** Claims about the imperative scroll operations *)

Lemma Num_le_true x y : Num.le x y = true ↔ (x <= y)%Q.
Proof. apply Qle_bool_iff. Qed.

Lemma Num_le_false x y : Num.le x y = false ↔ ¬ (x <= y)%Q.
Proof. unfold Num.le. rewrite <- not_true_iff_false. by rewrite Qle_bool_iff. Qed.

Lemma Num_ge_true x y : Num.ge x y = true ↔ (y <= x)%Q.
Proof. apply Qle_bool_iff. Qed.

Lemma Num_ge_false x y : Num.ge x y = false ↔ ¬ (y <= x)%Q.
Proof. unfold Num.ge. rewrite <- not_true_iff_false. by rewrite Qle_bool_iff. Qed.

Lemma Num_strictNe_true x y : Num.strictNe x y = true ↔ ¬ x == y.
Proof.
  unfold Num.strictNe. rewrite negb_true_iff, <- not_true_iff_false.
  by rewrite Qeq_bool_iff.
Qed.

Lemma Num_strictNe_false x y : Num.strictNe x y = false ↔ x == y.
Proof. unfold Num.strictNe. by rewrite negb_false_iff, Qeq_bool_iff. Qed.

(** Claim C6.  With ['auto'], [scrollToOffset] resolves to ['start'] when
    [toOffset <= scrollOffset]; otherwise to ['end'] when
    [toOffset >= scrollOffset + outerSize] (the two tests cannot both hold
    once [outerSize] is positive); and to ['start'] in every remaining
    case, so that some alignment is always resolved and a call is always
    made.  An explicit alignment is kept.  The offset handed to the setter
    is [toOffset] for ['start'], [toOffset - outerSize] for ['end'] and
    [toOffset - outerSize / 2] for ['center']. *)
Theorem scrollToOffset_alignment (scrollToFn : bool) (toOffset : Q)
    (align : ScrollAlignment) (reason : ScrollReason) (w : World.t) :
  let scrollOffset := Latest.scrollOffset (World.latestRef w) in
  let outerSize := Latest.outerSize (World.latestRef w) in
  let resolved := UseVirtual.scrollToOffset_align toOffset scrollOffset outerSize align in
  (align = AlignAuto →
     ((toOffset <= scrollOffset)%Q → resolved = AlignStart) ∧
     (¬ (toOffset <= scrollOffset)%Q → (scrollOffset + outerSize <= toOffset)%Q →
      resolved = AlignEnd) ∧
     ((0 < outerSize)%Q → (scrollOffset + outerSize <= toOffset)%Q →
      resolved = AlignEnd) ∧
     (¬ (toOffset <= scrollOffset)%Q → ¬ (scrollOffset + outerSize <= toOffset)%Q →
      resolved = AlignStart)) ∧
  (align ≠ AlignAuto → resolved = align) ∧
  resolved ≠ AlignAuto ∧
  (resolved = AlignStart →
     UseVirtual.scrollToOffset scrollToFn toOffset align reason w
     = World.perform (setterCall scrollToFn toOffset reason) w) ∧
  (resolved = AlignEnd →
     UseVirtual.scrollToOffset scrollToFn toOffset align reason w
     = World.perform (setterCall scrollToFn (toOffset - outerSize) reason) w) ∧
  (resolved = AlignCenter →
     UseVirtual.scrollToOffset scrollToFn toOffset align reason w
     = World.perform (setterCall scrollToFn (toOffset - outerSize / 2) reason) w).
Proof.
  intros scrollOffset outerSize resolved.
  assert (Hauto : align = AlignAuto →
            resolved = if Num.le toOffset scrollOffset then AlignStart
                       else if Num.ge toOffset (scrollOffset + outerSize)
                            then AlignEnd else AlignStart).
  { by intros ->. }
  split_and!.
  - intros Halign. specialize (Hauto Halign). split_and!.
    + intros Hle. apply Num_le_true in Hle. by rewrite Hauto, Hle.
    + intros Hgt Hge. apply Num_le_false in Hgt. apply Num_ge_true in Hge.
      by rewrite Hauto, Hgt, Hge.
    + intros Hpos Hge.
      assert (¬ (toOffset <= scrollOffset)%Q) as Hgt by lra.
      apply Num_le_false in Hgt. apply Num_ge_true in Hge.
      by rewrite Hauto, Hgt, Hge.
    + intros Hgt Hlt. apply Num_le_false in Hgt. apply Num_ge_false in Hlt.
      by rewrite Hauto, Hgt, Hlt.
  - intros Halign. subst resolved. by destruct align.
  - subst resolved. destruct align; try done. cbn.
    destruct (Num.le _ _); [done|]. by destruct (Num.ge _ _).
  - intros Hres. unfold UseVirtual.scrollToOffset.
    fold scrollOffset outerSize resolved. rewrite Hres.
    unfold UseVirtual.scrollTo, setterCall. by destruct scrollToFn.
  - intros Hres. unfold UseVirtual.scrollToOffset.
    fold scrollOffset outerSize resolved. rewrite Hres.
    unfold UseVirtual.scrollTo, setterCall. by destruct scrollToFn.
  - intros Hres. unfold UseVirtual.scrollToOffset.
    fold scrollOffset outerSize resolved. rewrite Hres.
    unfold UseVirtual.scrollTo, setterCall. by destruct scrollToFn.
Qed.

(** At scroll offset 100 in a viewport of 200, ['auto'] towards offset 400
    resolves to ['end'] and asks the adapter for 400 - 200. *)
Lemma scrollToOffset_alignment_witness :
  UseVirtual.scrollToOffset false 400 AlignAuto ToOffset
    (World.setLatest (Latest.mk 200 100 [] 0) (World.initial 100))
  = World.perform (DefaultScrollTo (400 - 200) ToOffset)
      (World.setLatest (Latest.mk 200 100 [] 0) (World.initial 100)).
Proof.
  destruct (scrollToOffset_alignment false 400 AlignAuto ToOffset
              (World.setLatest (Latest.mk 200 100 [] 0) (World.initial 100)))
    as (Hauto & _ & _ & _ & Hend & _).
  apply Hend. destruct (Hauto eq_refl) as (_ & _ & Hpositive & _).
  apply Hpositive; vm_compute; first [reflexivity | discriminate].
Defined.

(** The same resolution and offsets in [src/index.js], where the scroll
    offset may still be [undefined]: both tests then fail and ['auto']
    resolves to ['start']. *)
Lemma legacy_scrollToOffset_alignment (scrollToFn : bool) (toOffset : Q)
    (align : ScrollAlignment) (w : Legacy.World.t) :
  let scrollOffset := Legacy.Latest.scrollOffset (Legacy.World.latestRef w) in
  let outerSize := Legacy.Latest.outerSize (Legacy.World.latestRef w) in
  let resolved := Legacy.scrollToOffset_align toOffset scrollOffset outerSize align in
  (align = AlignAuto → scrollOffset = None → resolved = AlignStart) ∧
  (align = AlignAuto → ∀ so, scrollOffset = Some so →
     resolved = if Num.le toOffset so then AlignStart
                else if Num.ge toOffset (so + outerSize) then AlignEnd
                else AlignStart) ∧
  (align ≠ AlignAuto → resolved = align) ∧
  Legacy.scrollToOffset scrollToFn toOffset align w
  = match resolved with
    | AlignStart => Legacy.scrollTo scrollToFn toOffset w
    | AlignEnd => Legacy.scrollTo scrollToFn (toOffset - outerSize) w
    | AlignCenter => Legacy.scrollTo scrollToFn (toOffset - outerSize / 2) w
    | AlignAuto => w
    end.
Proof.
  intros scrollOffset outerSize resolved. subst resolved. split_and!.
  - intros -> Hnone. cbn. by rewrite Hnone.
  - intros -> so Hso. cbn. by rewrite Hso.
  - intros Halign. by destruct align.
  - done.
Qed.

(** [tryScrollToIndex] neither reads nor writes the queue of animation
    frames. *)
Lemma tryScrollToIndex_setAnimationFrames (size : nat) (scrollToFn : bool)
    (index : Z) (align : ScrollAlignment)
    (frames : list (Z * ScrollAlignment)) (w : World.t) :
  UseVirtual.tryScrollToIndex size scrollToFn index align
    (World.setAnimationFrames frames w)
  = World.setAnimationFrames frames
      (UseVirtual.tryScrollToIndex size scrollToFn index align w).
Proof.
  unfold UseVirtual.tryScrollToIndex. cbn [World.setAnimationFrames World.latestRef].
  destruct (JsArray.get _ _) as [m|]; [|done].
  assert (Hcall : ∀ toOffset resolved,
            UseVirtual.scrollToOffset scrollToFn toOffset resolved ToIndex
              (World.setAnimationFrames frames w)
            = World.setAnimationFrames frames
                (UseVirtual.scrollToOffset scrollToFn toOffset resolved ToIndex w)).
  { intros toOffset resolved. unfold UseVirtual.scrollToOffset.
    cbn [World.setAnimationFrames World.latestRef].
    destruct (UseVirtual.scrollToOffset_align _ _ _ _); try done;
      unfold UseVirtual.scrollTo; by destruct scrollToFn. }
  destruct align; try apply Hcall.
  destruct (Num.ge _ _); [apply Hcall|].
  destruct (Num.le _ _); [apply Hcall|done].
Qed.

(** ... so that the queue is the same after it. *)
Lemma tryScrollToIndex_animationFrames (size : nat) (scrollToFn : bool)
    (index : Z) (align : ScrollAlignment) (w : World.t) :
  World.animationFrames (UseVirtual.tryScrollToIndex size scrollToFn index align w)
  = World.animationFrames w.
Proof.
  replace w with (World.setAnimationFrames (World.animationFrames w) w) at 1
    by by destruct w.
  by rewrite tryScrollToIndex_setAnimationFrames.
Qed.



(** The same in [src/index.js]. *)
Lemma legacy_tryScrollToIndex_missing (size : nat) (scrollToFn : bool) (index : Z)
    (align : ScrollAlignment) (w : Legacy.World.t) :
  (1 ≤ size → (0 ≤ Legacy.clampIndex size index ≤ Z.of_nat size - 1)%Z) ∧
  (JsArray.get (Legacy.Latest.measurements (Legacy.World.latestRef w))
     (Legacy.clampIndex size index) = None →
   Legacy.tryScrollToIndex size scrollToFn index align w = w).
Proof.
  split.
  - unfold Legacy.clampIndex. lia.
  - intros Hmissing. unfold Legacy.tryScrollToIndex. by rewrite Hmissing.
Qed.

(** ** Claims about the measurement hook *)

(** Claim C8.  When [measureRef] is called with an element whose measured
    size differs from the item's size, the measured size is recorded in the
    cache under the item's key (and the item's index joins the pending
    ones).  When moreover the item starts before the current scroll offset,
    the tracked offset [scrollOffsetWithAdjustmentsRef] advances by
    [delta = measuredSize - item.size] and the adapter's setter is called
    with the advanced offset and reason ['SizeChanged']; otherwise neither
    happens. *)
Theorem measureRef_records_size (horizontal : bool)
    (measureSize : HTMLElement → bool → Q) (m : Measurement.t) (i : nat)
    (el : HTMLElement) (w : World.t) :
  let measuredSize := measureSize el horizontal in
  let scrollOffset := Latest.scrollOffset (World.latestRef w) in
  let delta := (measuredSize - Measurement.size m)%Q in
  let w' := UseVirtual.measureRef horizontal measureSize
              (VirtualItem.mk (Some m) i) (Some el) w in
  ¬ measuredSize == Measurement.size m →
  World.measuredCache w'
  = <[propertyName (Measurement.key m) := measuredSize]> (World.measuredCache w) ∧
  World.pendingMeasuredCacheIndexesRef w'
  = World.pendingMeasuredCacheIndexesRef w ++ [i] ∧
  World.latestRef w' = World.latestRef w ∧
  ((Measurement.start m < scrollOffset)%Q →
     World.scrollOffsetWithAdjustmentsRef w'
     = (World.scrollOffsetWithAdjustmentsRef w + delta)%Q ∧
     World.effects w'
     = World.effects w
       ++ [DefaultScrollTo (World.scrollOffsetWithAdjustmentsRef w + delta) SizeChanged]) ∧
  (¬ (Measurement.start m < scrollOffset)%Q →
     World.scrollOffsetWithAdjustmentsRef w' = World.scrollOffsetWithAdjustmentsRef w ∧
     World.effects w' = World.effects w).
Proof.
  intros measuredSize scrollOffset delta w' Hdiffers.
  apply Num_strictNe_true in Hdiffers.
  subst w'. unfold UseVirtual.measureRef, UseVirtual.sizeDiffers. cbn.
  fold measuredSize scrollOffset. rewrite Hdiffers.
  destruct (Num.lt (Measurement.start m) scrollOffset) eqn:Hbefore.
  - apply Num_lt_true in Hbefore.
    split_and!; try done; intros Hnot; by destruct Hnot.
  - apply Num_lt_false in Hbefore.
    split_and!; try done; intros Hlt; exfalso; lra.
Qed.

(** An item of size 50 starting at 0 is measured at 25 while the list is
    scrolled to 75: the tracked offset moves from 75 by -25. *)
Lemma measureRef_records_size_witness :
  World.measuredCache
    (UseVirtual.measureRef false defaultMeasureSize
       (VirtualItem.mk (Some (Measurement.mk (KeyNumber 0) 0 0 50 50)) 0)
       (Some (Scenario.element 25))
       (World.setLatest (Latest.mk 200 75 [] 0) (World.initial 75)))
  = <[propertyName (KeyNumber 0) := defaultMeasureSize (Scenario.element 25) false]> ∅.
Proof.
  destruct (measureRef_records_size false defaultMeasureSize
              (Measurement.mk (KeyNumber 0) 0 0 50 50) 0 (Scenario.element 25)
              (World.setLatest (Latest.mk 200 75 [] 0) (World.initial 75)))
    as (Hcache & _).
  - vm_compute. discriminate.
  - exact Hcache.
Defined.

(** The same in [src/index.js], which has no pending list and no reasons,
    and hands the setter [scrollOffset + delta]. *)
Lemma legacy_measureRef_records_size (keyExtractor : nat → Key)
    (item : Legacy.Measurement.t) (i : nat) (measuredSize : Q)
    (w : Legacy.World.t) :
  let w' := Legacy.measureRef keyExtractor item i (Some measuredSize) w in
  ¬ measuredSize == Legacy.Measurement.size item →
  Legacy.World.measuredCache w'
  = <[propertyName (keyExtractor i) := measuredSize]> (Legacy.World.measuredCache w) ∧
  (∀ scrollOffset,
     Legacy.Latest.scrollOffset (Legacy.World.latestRef w) = Some scrollOffset →
     (Legacy.Measurement.start item < scrollOffset)%Q →
     Legacy.World.effects w'
     = Legacy.World.effects w
       ++ [Legacy.DefaultScrollTo
             (scrollOffset + (measuredSize - Legacy.Measurement.size item))]).
Proof.
  intros w' Hdiffers. apply Num_strictNe_true in Hdiffers.
  subst w'. unfold Legacy.measureRef. rewrite Hdiffers.
  split.
  - by destruct (Legacy.Latest.scrollOffset _) as [so|]; [destruct (Num.lt _ so)|].
  - intros scrollOffset -> Hbefore. apply Num_lt_true in Hbefore. by rewrite Hbefore.
Qed.

(** Claim C10.  Called with [null], or with an element whose measured size
    equals the item's size, [measureRef] returns the state as it found it:
    cache, pending indexes, tracked offset and the calls made so far. *)
Theorem measureRef_unchanged (horizontal : bool)
    (measureSize : HTMLElement → bool → Q) (item : VirtualItem.t)
    (m : Measurement.t) (i : nat) (el : HTMLElement) (w : World.t) :
  UseVirtual.measureRef horizontal measureSize item None w = w ∧
  (measureSize el horizontal == Measurement.size m →
   UseVirtual.measureRef horizontal measureSize (VirtualItem.mk (Some m) i) (Some el) w
   = w).
Proof.
  split; [done|].
  intros Hsame. apply Num_strictNe_false in Hsame.
  unfold UseVirtual.measureRef, UseVirtual.sizeDiffers. cbn. by rewrite Hsame.
Qed.

(** An item of size 50 measured at 100/2. *)
Lemma measureRef_unchanged_witness :
  UseVirtual.measureRef false defaultMeasureSize
    (VirtualItem.mk (Some (Measurement.mk (KeyNumber 0) 0 0 50 50)) 0)
    (Some (Scenario.element (100 # 2)))
    (World.setLatest (Latest.mk 200 75 [] 0) (World.initial 75))
  = World.setLatest (Latest.mk 200 75 [] 0) (World.initial 75).
Proof.
  apply (measureRef_unchanged false defaultMeasureSize
           (VirtualItem.mk None 0) (Measurement.mk (KeyNumber 0) 0 0 50 50) 0
           (Scenario.element (100 # 2))).
  vm_compute. reflexivity.
Defined.

(** The same in [src/index.js]. *)
Lemma legacy_measureRef_unchanged (keyExtractor : nat → Key)
    (item : Legacy.Measurement.t) (i : nat) (measuredSize : Q)
    (w : Legacy.World.t) :
  Legacy.measureRef keyExtractor item i None w = w ∧
  (measuredSize == Legacy.Measurement.size item →
   Legacy.measureRef keyExtractor item i (Some measuredSize) w = w).
Proof.
  split; [done|].
  intros Hsame. apply Num_strictNe_false in Hsame.
  unfold Legacy.measureRef. by rewrite Hsame.
Qed.

(** ** Claim about the window scroll adapter *)

(** Claim C9.  On attachment to a window with the container in place,
    [parentOffsetRef] captures the window scroll position plus the
    container's bounding-rect offset on the axis; the reported
    [scrollOffset] is the window scroll position minus [parentOffsetRef],
    then and at every later scroll event.  [scrollToFn] writes
    [offset + parentOffsetRef] for the reasons ['ToIndex'] and
    ['SizeChanged'], and [offset + 0] for ['ToOffset']. *)
Theorem windowScroll_translation (horizontal : bool)
    (window later : WindowScroll.Window) (rect : WindowScroll.DOMRect)
    (st : WindowScroll.t) (offset : Q) (reason : ScrollReason) :
  let attached := WindowScroll.attach horizontal (Some window) (Some rect) st in
  WindowScroll.parentOffsetRef attached
  = (WindowScroll.scrollPosition horizontal window
     + WindowScroll.rectOffset horizontal rect)%Q ∧
  WindowScroll.scrollOffset attached
  = (WindowScroll.scrollPosition horizontal window
     - WindowScroll.parentOffsetRef attached)%Q ∧
  WindowScroll.scrollOffset (WindowScroll.onScroll horizontal later st)
  = (WindowScroll.scrollPosition horizontal later - WindowScroll.parentOffsetRef st)%Q ∧
  WindowScroll.parentOffsetRef (WindowScroll.onScroll horizontal later st)
  = WindowScroll.parentOffsetRef st ∧
  (reason = ToIndex ∨ reason = SizeChanged →
   ∃ arg, WindowScroll.scrollToFn horizontal (Some window) st offset reason = Some arg ∧
     WindowScroll.written horizontal arg
     = Some (offset + WindowScroll.parentOffsetRef st)%Q) ∧
  (reason = ToOffset →
   ∃ arg target,
     WindowScroll.scrollToFn horizontal (Some window) st offset reason = Some arg ∧
     WindowScroll.written horizontal arg = Some target ∧ target == offset) ∧
  WindowScroll.scrollToFn horizontal None st offset reason = None.
Proof.
  split_and!; try done.
  - intros [-> | ->]; cbn; destruct horizontal; eauto.
  - intros ->. cbn. destruct horizontal; eexists _, _; (split_and!; [done | done | cbn; lra]).
Qed.

(** A container 300 below the top of the viewport of a page scrolled to
    120: a request for the in-list offset 50 with reason ['ToIndex']
    scrolls the window to 50 plus the captured offset. *)
Lemma windowScroll_translation_witness :
  ∃ arg,
    WindowScroll.scrollToFn false (Some {| WindowScroll.scrollX := 0; WindowScroll.scrollY := 120 |})
      (WindowScroll.attach false
         (Some {| WindowScroll.scrollX := 0; WindowScroll.scrollY := 120 |})
         (Some {| WindowScroll.left := 0; WindowScroll.top := 300 |})
         WindowScroll.initial)
      50 ToIndex = Some arg ∧
    WindowScroll.written false arg
    = Some (50 + WindowScroll.parentOffsetRef
                   (WindowScroll.attach false
                      (Some {| WindowScroll.scrollX := 0; WindowScroll.scrollY := 120 |})
                      (Some {| WindowScroll.left := 0; WindowScroll.top := 300 |})
                      WindowScroll.initial))%Q.
Proof.
  destruct (windowScroll_translation false
              {| WindowScroll.scrollX := 0; WindowScroll.scrollY := 120 |}
              {| WindowScroll.scrollX := 0; WindowScroll.scrollY := 120 |}
              {| WindowScroll.left := 0; WindowScroll.top := 300 |}
              (WindowScroll.attach false
                 (Some {| WindowScroll.scrollX := 0; WindowScroll.scrollY := 120 |})
                 (Some {| WindowScroll.left := 0; WindowScroll.top := 300 |})
                 WindowScroll.initial)
              50 ToIndex) as (_ & _ & _ & _ & Htranslated & _).
  apply Htranslated. left. reflexivity.
Defined.

(** * Further properties of the code *)

(** ** More on the derivation of spans *)

Lemma get_Some_lookup {A} (a : array A) (i : nat) (x : A) :
  JsArray.get a (Z.of_nat i) = Some x ↔ a !! i = Some (Some x).
Proof.
  rewrite get_nat. destruct (a !! i) as [[y|]|]; cbn; split; congruence.
Qed.

(** A derivation from scratch is what [derivation] describes, whatever
    the previous spans were. *)
Lemma measurements_derivation (size : nat) (estimateSize : nat → Q)
    (keyExtractor : nat → Key) (paddingStart : Q)
    (measuredCache : gmap string Q) (previous : array Measurement.t) :
  derivation keyExtractor (expectedSize estimateSize keyExtractor measuredCache)
    paddingStart size
    (UseVirtual.measurements size estimateSize paddingStart keyExtractor
       measuredCache [] previous).
Proof.
  split; [apply measurements_length|].
  destruct (measurements_spec estimateSize paddingStart keyExtractor measuredCache
              size [] previous) as (_ & Hfilled).
  intros i Hi. destruct (Hfilled i) as (m & Hm & Hkey & Hindex & Hsize & Hend & Hstart).
  { cbn. lia. }
  rewrite Hm. f_equal. destruct m as [k ix st en sz]. cbn in *. by subst.
Qed.

(** Two arrays that are derivations of the same sizes agree entry by
    entry, hence are equal. *)
Lemma derivation_get_eq (keyExtractor : nat → Key) (sizes : nat → Q)
    (paddingStart : Q) (N : nat) (a b : array Measurement.t) :
  derivation keyExtractor sizes paddingStart N a →
  derivation keyExtractor sizes paddingStart N b →
  ∀ i, i < N → JsArray.get a (Z.of_nat i) = JsArray.get b (Z.of_nat i).
Proof.
  intros (_ & Ha) (_ & Hb) i. induction i as [|i IH]; intros Hi.
  - rewrite Ha, Hb by done. unfold startAfter. cbn.
    by rewrite !get_negative by lia.
  - rewrite Ha, Hb by done. unfold startAfter.
    replace (Z.of_nat (S i) - 1)%Z with (Z.of_nat i) by lia.
    by rewrite IH by lia.
Qed.

Lemma derivation_unique (keyExtractor : nat → Key) (sizes : nat → Q)
    (paddingStart : Q) (N : nat) (a b : array Measurement.t) :
  derivation keyExtractor sizes paddingStart N a →
  derivation keyExtractor sizes paddingStart N b →
  a = b.
Proof.
  intros Ha Hb. pose proof (derivation_get_eq _ _ _ _ _ _ Ha Hb) as Hget.
  destruct Ha as (Hla & Ha), Hb as (Hlb & Hb).
  apply list_eq. intros i. destruct (decide (i < N)) as [Hi|Hi].
  - specialize (Hget i Hi). rewrite Ha in Hget by done.
    symmetry in Hget. apply get_Some_lookup in Hget. rewrite Hget.
    by apply get_Some_lookup, Ha.
  - by rewrite !lookup_ge_None_2 by lia.
Qed.

(** Only the sizes of the indices below [N] matter. *)
Lemma derivation_ext (keyExtractor : nat → Key) (sizes sizes' : nat → Q)
    (paddingStart : Q) (N : nat) (a : array Measurement.t) :
  (∀ i, i < N → sizes i = sizes' i) →
  derivation keyExtractor sizes paddingStart N a →
  derivation keyExtractor sizes' paddingStart N a.
Proof.
  intros Hsizes (Hlength & Ha). split; [done|].
  intros i Hi. rewrite Ha by done. by rewrite Hsizes by done.
Qed.

(** Where the spans of a derivation lie. *)
Lemma derivation_positions (keyExtractor : nat → Key) (sizes : nat → Q)
    (paddingStart : Q) (N : nat) (a : array Measurement.t) :
  derivation keyExtractor sizes paddingStart N a →
  ∀ i, i < N →
    ∃ m, JsArray.get a (Z.of_nat i) = Some m ∧
      Measurement.key m = keyExtractor i ∧
      Measurement.index m = i ∧
      Measurement.size m = sizes i ∧
      Measurement.start m = runningEnd sizes paddingStart i ∧
      Measurement.end_ m = runningEnd sizes paddingStart (S i).
Proof.
  intros (_ & Ha) i. induction i as [|i IH]; intros Hi.
  - eexists. split; [by apply Ha|]. cbn. unfold startAfter.
    by rewrite get_negative by lia.
  - destruct IH as (p & Hp & _ & _ & _ & _ & Hend); [lia|].
    eexists. split; [by apply Ha|]. cbn [Measurement.key Measurement.index
      Measurement.size Measurement.start Measurement.end_]. unfold startAfter.
    replace (Z.of_nat (S i) - 1)%Z with (Z.of_nat i) by lia.
    rewrite Hp. cbn [span_end measurement_span]. rewrite Hend. done.
Qed.

Lemma get_keyedSpans (keyExtractor : nat → Key)
    (spans : array Legacy.Measurement.t) (z : Z) :
  JsArray.get (keyedSpans keyExtractor spans) z
  = option_map (keyed keyExtractor) (JsArray.get spans z).
Proof.
  unfold JsArray.get, keyedSpans. destruct (z <? 0)%Z; [done|].
  rewrite list_lookup_fmap. by destruct (spans !! Z.to_nat z) as [[x|]|].
Qed.

Lemma length_keyedSpans (keyExtractor : nat → Key)
    (spans : array Legacy.Measurement.t) :
  length (keyedSpans keyExtractor spans) = length spans.
Proof. unfold keyedSpans. apply length_fmap. Qed.

(** An incremental run yields a derivation for the new cache whenever the
    spans it keeps came from a derivation whose cache gave the kept
    indices the same entries. *)
Lemma incremental_derivation (size : nat) (estimateSize : nat → Q)
    (keyExtractor : nat → Key) (paddingStart : Q)
    (measuredCache measuredCache' : gmap string Q) (pending : list nat)
    (previous : array Measurement.t) :
  (∀ i, i < UseVirtual.minPending pending → i < size →
     measuredCache' !! propertyName (keyExtractor i)
     = measuredCache !! propertyName (keyExtractor i)) →
  derivation keyExtractor (expectedSize estimateSize keyExtractor measuredCache)
    paddingStart size previous →
  derivation keyExtractor (expectedSize estimateSize keyExtractor measuredCache')
    paddingStart size
    (UseVirtual.measurements size estimateSize paddingStart keyExtractor
       measuredCache' pending previous).
Proof.
  intros Hagree (Hlength & Hprevious).
  destruct (measurements_spec estimateSize paddingStart keyExtractor measuredCache'
              size pending previous) as (Hbelow & Hfilled).
  set (min := UseVirtual.minPending pending) in *.
  split.
  - unfold UseVirtual.measurements. fold min.
    destruct (measurements_loop_spec estimateSize paddingStart keyExtractor
                measuredCache' (size - min) min (JsArray.slice0 previous min))
      as (_ & _ & Hlen).
    { apply length_slice0. }
    rewrite Hlen. unfold JsArray.slice0. rewrite length_take.
    destruct (size - min) eqn:Hcount; lia.
  - intros i Hi. destruct (decide (i < min)) as [Hlt|Hge].
    + rewrite Hbelow by lia. rewrite Hprevious by done.
      unfold startAfter. rewrite Hbelow by lia.
      unfold expectedSize. by rewrite Hagree by done.
    + destruct (Hfilled i) as (m & Hm & Hkey & Hindex & Hsize & Hend & Hstart); [lia|].
      rewrite Hm. f_equal. destruct m as [k ix st en sz]. cbn in *. by subst.
Qed.

(** Property X1.  Let two derivations use the same item count, estimator,
    key function and [paddingStart]: one from scratch for a cache
    [measuredCache], then an incremental one for a cache [measuredCache']
    on top of its spans.  If the two caches hold the same entry (or both
    none) under the key of every index that is below both the smallest
    pending index and the item count, the incremental derivation yields
    exactly the spans a derivation from scratch yields for
    [measuredCache']. *)
Theorem incremental_equals_full (size : nat) (estimateSize : nat → Q)
    (keyExtractor : nat → Key) (paddingStart : Q)
    (measuredCache measuredCache' : gmap string Q) (pending : list nat)
    (previous previous' : array Measurement.t) :
  (∀ i, i < UseVirtual.minPending pending → i < size →
     measuredCache' !! propertyName (keyExtractor i)
     = measuredCache !! propertyName (keyExtractor i)) →
  UseVirtual.measurements size estimateSize paddingStart keyExtractor measuredCache'
    pending
    (UseVirtual.measurements size estimateSize paddingStart keyExtractor
       measuredCache [] previous)
  = UseVirtual.measurements size estimateSize paddingStart keyExtractor
      measuredCache' [] previous'.
Proof.
  intros Hagree.
  eapply derivation_unique; [|apply measurements_derivation].
  apply (incremental_derivation _ _ _ _ measuredCache); [done|].
  apply measurements_derivation.
Qed.

Lemma incremental_equals_full_witness :
  UseVirtual.measurements 3 defaultEstimateSize 0 defaultKeyExtractor
    {["1" := 30%Q]} [1]
    (UseVirtual.measurements 3 defaultEstimateSize 0 defaultKeyExtractor ∅ [] [])
  = UseVirtual.measurements 3 defaultEstimateSize 0 defaultKeyExtractor
      {["1" := 30%Q]} [] [].
Proof.
  apply (incremental_equals_full 3 defaultEstimateSize defaultKeyExtractor 0
           ∅ {["1" := 30%Q]} [1] [] []).
  intros i Hi _. assert (i = 0) as -> by (cbn in Hi; lia).
  vm_compute. reflexivity.
Defined.

(** Property X2.  A derivation from scratch depends on the cache only through the
    entries under the keys of the indices below the item count, and not at
    all on the spans derived before. *)
Theorem measurements_inert_keys (size : nat) (estimateSize : nat → Q)
    (keyExtractor : nat → Key) (paddingStart : Q)
    (measuredCache measuredCache' : gmap string Q)
    (previous previous' : array Measurement.t) :
  (∀ i, i < size →
     measuredCache' !! propertyName (keyExtractor i)
     = measuredCache !! propertyName (keyExtractor i)) →
  UseVirtual.measurements size estimateSize paddingStart keyExtractor measuredCache'
    [] previous'
  = UseVirtual.measurements size estimateSize paddingStart keyExtractor measuredCache
      [] previous.
Proof.
  intros Hagree.
  eapply derivation_unique; [|apply measurements_derivation].
  eapply derivation_ext; [|apply measurements_derivation].
  intros i Hi. unfold expectedSize. by rewrite Hagree.
Qed.

Lemma measurements_inert_keys_witness :
  UseVirtual.measurements 2 defaultEstimateSize 0 defaultKeyExtractor
    {["7" := 30%Q]} [] []
  = UseVirtual.measurements 2 defaultEstimateSize 0 defaultKeyExtractor ∅ []
      (UseVirtual.measurements 5 defaultEstimateSize 10 defaultKeyExtractor ∅ [] []).
Proof.
  apply (measurements_inert_keys 2 defaultEstimateSize defaultKeyExtractor 0
           ∅ {["7" := 30%Q]}).
  intros i Hi. destruct i as [|[|i]]; [| |lia]; vm_compute; reflexivity.
Defined.

(** Property X3.  [src/index.js] derives the spans that [index.ts] derives from
    scratch, without their keys. *)
Theorem legacy_measurements_agree (size : nat) (estimateSize : nat → Q)
    (keyExtractor : nat → Key) (paddingStart : Q)
    (measuredCache : gmap string Q) (previous : array Measurement.t) :
  keyedSpans keyExtractor
    (Legacy.measurements size estimateSize paddingStart keyExtractor measuredCache)
  = UseVirtual.measurements size estimateSize paddingStart keyExtractor measuredCache
      [] previous.
Proof.
  eapply derivation_unique; [|apply measurements_derivation].
  destruct (legacy_measurements_spec estimateSize paddingStart keyExtractor
              measuredCache size) as (Hlength & Hfilled).
  split; [by rewrite length_keyedSpans|].
  intros i Hi. destruct (Hfilled i Hi) as (m & Hm & Hindex & Hsize & Hend & Hstart).
  rewrite get_keyedSpans, Hm. cbn [option_map]. f_equal.
  assert (startAfter paddingStart
            (keyedSpans keyExtractor
               (Legacy.measurements size estimateSize paddingStart keyExtractor
                  measuredCache)) i
          = Legacy.Measurement.start m) as ->.
  { rewrite Hstart. unfold startAfter. rewrite get_keyedSpans.
    by destruct (JsArray.get _ (Z.of_nat i - 1)). }
  unfold keyed. rewrite Hindex, Hend, Hsize. done.
Qed.

(** Property X4.  Spans derived from scratch lie where the running sum of
    the sizes before them puts them: span [i] carries index [i] and the key
    of [i], has the size the cache or the estimator gives it, starts at
    [((paddingStart + size 0) + size 1) + ... + size (i - 1)], added in
    that order, and ends at that sum plus its own size. *)
Theorem measurements_positions (size : nat) (estimateSize : nat → Q)
    (keyExtractor : nat → Key) (paddingStart : Q)
    (measuredCache : gmap string Q) (previous : array Measurement.t) (i : nat) :
  let sizes := expectedSize estimateSize keyExtractor measuredCache in
  i < size →
  ∃ m,
    JsArray.get
      (UseVirtual.measurements size estimateSize paddingStart keyExtractor
         measuredCache [] previous) (Z.of_nat i) = Some m ∧
    Measurement.key m = keyExtractor i ∧
    Measurement.index m = i ∧
    Measurement.size m = sizes i ∧
    Measurement.start m = runningEnd sizes paddingStart i ∧
    Measurement.end_ m = (runningEnd sizes paddingStart i + sizes i)%Q.
Proof.
  intros sizes Hi.
  apply (derivation_positions keyExtractor sizes paddingStart size); [|done].
  apply measurements_derivation.
Qed.

(** Three items from 10, the second measured at 30: the third starts at
    [(10 + 50) + 30]. *)
Lemma measurements_positions_witness :
  ∃ m,
    JsArray.get
      (UseVirtual.measurements 3 defaultEstimateSize 10 defaultKeyExtractor
         {["1" := 30%Q]} [] []) (Z.of_nat 2) = Some m ∧
    Measurement.start m = (10 + 50 + 30)%Q.
Proof.
  destruct (measurements_positions 3 defaultEstimateSize defaultKeyExtractor 10
              {["1" := 30%Q]} [] 2) as (m & Hm & _ & _ & _ & Hstart & _); [lia|].
  exists m. split; [exact Hm|]. rewrite Hstart. vm_compute. reflexivity.
Defined.

(** Property X5.  With at least one item, [totalSize] of spans derived from
    scratch is the running sum [((paddingStart + size 0) + size 1) + ...]
    over all items, added in that order, plus [paddingEnd]. *)
Theorem totalSize_sum (size : nat) (estimateSize : nat → Q)
    (keyExtractor : nat → Key) (paddingStart paddingEnd : Q)
    (measuredCache : gmap string Q) (previous : array Measurement.t) :
  1 ≤ size →
  UseVirtual.totalSize size paddingEnd
    (UseVirtual.measurements size estimateSize paddingStart keyExtractor
       measuredCache [] previous)
  == runningEnd (expectedSize estimateSize keyExtractor measuredCache)
       paddingStart size
     + paddingEnd.
Proof.
  intros Hsize.
  destruct (derivation_positions keyExtractor
              (expectedSize estimateSize keyExtractor measuredCache)
              paddingStart size _
              (measurements_derivation size estimateSize keyExtractor paddingStart
                 measuredCache previous) (size - 1))
    as (m & Hm & _ & _ & _ & _ & Hend); [lia|].
  replace (Z.of_nat (size - 1)) with (Z.of_nat size - 1)%Z in Hm by lia.
  rewrite (totalSize_last size paddingEnd _ m Hm), Hend.
  by replace (S (size - 1)) with size by lia.
Qed.

(** The same three items with a [paddingEnd] of 5. *)
Lemma totalSize_sum_witness :
  UseVirtual.totalSize 3 5
    (UseVirtual.measurements 3 defaultEstimateSize 10 defaultKeyExtractor
       {["1" := 30%Q]} [] [])
  == 10 + 50 + 30 + 50 + 5.
Proof.
  rewrite (totalSize_sum 3 defaultEstimateSize defaultKeyExtractor 10 5
             {["1" := 30%Q]} [] ltac:(lia)).
  vm_compute. reflexivity.
Defined.

(** ** More on the range locator *)

(** Whatever the values are, the search returns an index between 0 and
    [high] as long as every probe does. *)
Lemma findNearestBinarySearch_loop_returns (n : Z)
    (getCurrentValue : Z → outcome Q) (value : Q) (fuel : nat) :
  (n ≤ 2 ^ 31)%Z →
  (∀ z, (0 ≤ z < n)%Z → ∃ v, getCurrentValue z = Returns v) →
  ∀ low high,
    (0 ≤ low)%Z → (high < n)%Z → (low ≤ high + 1)%Z →
    Z.to_nat (high - low + 2) ≤ fuel →
    ∃ r, findNearestBinarySearch_loop fuel low high getCurrentValue value = Returns r
         ∧ (0 ≤ r)%Z ∧ (r ≤ Z.max 0 high)%Z.
Proof.
  intros Hsmall Hget. induction fuel as [|fuel IH]; intros low high Hlow Hhigh Hle Hfuel.
  { lia. }
  cbn [findNearestBinarySearch_loop].
  destruct (Z.leb_spec low high) as [Hin|Hout].
  - pose proof (middle_between low high Hlow Hin ltac:(lia)) as Hmid.
    set (middle := Num.bitOr _ _) in *.
    destruct (Hget middle) as [v ->]; [lia|]. cbn [obind].
    destruct (Num.lt v value).
    { destruct (IH (middle + 1)%Z high) as (r & Hr & ?); [lia..|]. exists r. split; [done|lia]. }
    destruct (Num.lt value v).
    { destruct (IH low (middle - 1)%Z) as (r & Hr & ?); [lia..|]. exists r. split; [done|lia]. }
    exists middle. split; [done|lia].
  - destruct (Z.ltb_spec 0 low).
    + exists (low - 1)%Z. split; [done|lia].
    + exists 0%Z. split; [done|lia].
Qed.

(** Property X6.  On an array without holes [calculateRange] never throws, whatever
    the sizes and offsets are, and its interval stays within the array. *)
Theorem calculateRange_never_throws (spans : array Measurement.t)
    (scrollOffset outerSize totalSize : Q) :
  noHoles spans → (Z.of_nat (length spans) ≤ 2 ^ 31)%Z →
  ∃ s e,
    calculateRange (Latest.mk outerSize scrollOffset spans totalSize) = Returns (s, e) ∧
    (0 ≤ s)%Z ∧ (s ≤ e)%Z ∧ (e ≤ Z.max 0 (Z.of_nat (length spans) - 1))%Z.
Proof.
  intros Hdense Hsmall. unfold calculateRange.
  cbn [Latest.measurements Latest.outerSize Latest.scrollOffset].
  set (getOffset := fun index : Z => obind _ _).
  destruct (findNearestBinarySearch_loop_returns (Z.of_nat (length spans)) getOffset
              scrollOffset (Z.to_nat (Z.of_nat (length spans) - 1 - 0 + 2)) Hsmall)
    with (low := 0%Z) (high := (Z.of_nat (length spans) - 1)%Z)
    as (s & Hsearch & Hs0 & Hs1); try lia.
  { intros z Hz. subst getOffset. cbn beta.
    destruct (Hdense z Hz) as [m ->]. cbn. eauto. }
  unfold findNearestBinarySearch. rewrite Hsearch. cbn [obind].
  destruct (decide (length spans = 0)) as [Hempty|Hne].
  - assert (s = 0%Z) as -> by lia.
    replace (Z.to_nat (Z.of_nat (length spans) - 1 - 0)) with 0%nat by lia. cbn.
    exists 0%Z, 0%Z. split_and!; [done|lia..].
  - destruct (calculateRange_end_spec spans Hdense (scrollOffset + outerSize)%Q
                (Z.to_nat (Z.of_nat (length spans) - 1 - s)) s)
      as (e & Hrun & Hrange & _); [lia..|].
    rewrite Hrun. cbn [obind]. exists s, e. split_and!; [done|lia..].
Qed.

Lemma calculateRange_never_throws_witness :
  ∃ s e,
    calculateRange
      (Latest.mk 1 7
         (UseVirtual.measurements 3 (fun i => if (i =? 1)%nat then (-5)%Q else 10%Q) 0
            defaultKeyExtractor ∅ [] [])
         15) = Returns (s, e) ∧
    (0 ≤ s)%Z ∧ (s ≤ e)%Z ∧ (e ≤ Z.max 0 (Z.of_nat 3 - 1))%Z.
Proof.
  apply (calculateRange_never_throws
           (UseVirtual.measurements 3 (fun i => if (i =? 1)%nat then (-5)%Q else 10%Q) 0
              defaultKeyExtractor ∅ [] []) 7 1 15).
  - intros z Hz. change (length _) with 3 in Hz.
    destruct (Z.to_nat z) as [|[|[|k]]] eqn:Hk; [| | |lia].
    + replace z with 0%Z by lia. vm_compute. eauto.
    + replace z with 1%Z by lia. vm_compute. eauto.
    + replace z with 2%Z by lia. vm_compute. eauto.
  - vm_compute. discriminate.
Defined.

(** Property X7.  [calculateRange] throws when the first index the search probes,
    the middle of the array, is a hole. *)
Theorem calculateRange_throws_on_hole (spans : array Measurement.t)
    (scrollOffset outerSize totalSize : Q) :
  1 ≤ length spans → (Z.of_nat (length spans) ≤ 2 ^ 31)%Z →
  JsArray.get spans ((Z.of_nat (length spans) - 1) / 2) = None →
  calculateRange (Latest.mk outerSize scrollOffset spans totalSize) = Throws.
Proof.
  intros Hpos Hsmall Hhole. unfold calculateRange, findNearestBinarySearch.
  cbn [Latest.measurements Latest.outerSize Latest.scrollOffset].
  replace (Z.to_nat (Z.of_nat (length spans) - 1 - 0 + 2))
    with (S (length spans)) by lia.
  cbn [findNearestBinarySearch_loop].
  rewrite (proj2 (Z.leb_le 0 (Z.of_nat (length spans) - 1))) by lia.
  replace (Num.bitOr (Z.quot (0 + (Z.of_nat (length spans) - 1)) 2) 0)
    with ((Z.of_nat (length spans) - 1) / 2)%Z.
  - by rewrite Hhole.
  - rewrite Z.add_0_l, Z.quot_div_nonneg by lia.
    rewrite bitOr_zero; [done|].
    split; [apply Z.div_pos; lia | apply Z.div_lt_upper_bound; lia].
Qed.

(** Index 5 is pending although nothing was rendered before: the spans
    5 and 6 are derived behind five holes, and the locator throws. *)
Lemma calculateRange_throws_on_hole_witness :
  calculateRange
    (Latest.mk 200 0
       (UseVirtual.measurements 7 defaultEstimateSize 0 defaultKeyExtractor ∅ [5] [])
       0) = Throws.
Proof.
  apply (calculateRange_throws_on_hole
           (UseVirtual.measurements 7 defaultEstimateSize 0 defaultKeyExtractor ∅ [5] [])
           0 200 0).
  - vm_compute. lia.
  - vm_compute. discriminate.
  - vm_compute. reflexivity.
Defined.

(** Property X8.  When the smallest pending index lies past the end of the previous
    spans, the indices in between stay holes and the span at that index
    starts at [paddingStart]. *)
Theorem measurements_gap (size : nat) (estimateSize : nat → Q)
    (keyExtractor : nat → Key) (paddingStart : Q)
    (measuredCache : gmap string Q) (pending : list nat)
    (previous : array Measurement.t) :
  let min := UseVirtual.minPending pending in
  let spans :=
    UseVirtual.measurements size estimateSize paddingStart keyExtractor
      measuredCache pending previous in
  length previous < min → min < size →
  (∀ i, length previous ≤ i < min → JsArray.get spans (Z.of_nat i) = None) ∧
  ∃ m, JsArray.get spans (Z.of_nat min) = Some m ∧
       Measurement.start m = paddingStart.
Proof.
  intros min spans Hshort Hmin.
  destruct (measurements_spec estimateSize paddingStart keyExtractor measuredCache
              size pending previous) as (Hbelow & Hfilled).
  fold min spans in Hbelow, Hfilled.
  assert (Hholes : ∀ i, length previous ≤ i < min →
            JsArray.get spans (Z.of_nat i) = None).
  { intros i Hi. rewrite Hbelow by lia. apply get_past_end. lia. }
  split; [done|].
  destruct (Hfilled min) as (m & Hm & _ & _ & _ & _ & Hstart); [lia|].
  exists m. split; [done|]. rewrite Hstart. unfold startAfter.
  replace (Z.of_nat min - 1)%Z with (Z.of_nat (min - 1)) by lia.
  by rewrite Hholes by lia.
Qed.

Lemma measurements_gap_witness :
  (∀ i, 0 ≤ i < 5 →
     JsArray.get
       (UseVirtual.measurements 7 defaultEstimateSize 10 defaultKeyExtractor ∅ [5] [])
       (Z.of_nat i) = None) ∧
  ∃ m,
    JsArray.get
      (UseVirtual.measurements 7 defaultEstimateSize 10 defaultKeyExtractor ∅ [5] [])
      (Z.of_nat 5) = Some m ∧
    Measurement.start m = 10%Q.
Proof.
  apply (measurements_gap 7 defaultEstimateSize defaultKeyExtractor 10 ∅ [5] []);
    cbn; lia.
Defined.





(** ** The range extractor and the hook body *)

Lemma elem_of_defaultRangeExtractor (range : Range.t) (i : nat) :
  i ∈ defaultRangeExtractor range ↔
  (Z.max (Range.start range - Range.overscan range) 0 ≤ Z.of_nat i
   ≤ Z.min (Range.end_ range + Range.overscan range) (Range.size range - 1))%Z.
Proof. unfold defaultRangeExtractor. rewrite elem_of_seq. lia. Qed.

(** Property X10.  The default range extractor yields exactly the indices from
    [max(start - overscan, 0)] to [min(end + overscan, size - 1)], each
    once, in ascending order; none when there is no item. *)
Theorem defaultRangeExtractor_indices (range : Range.t) :
  let first := Z.max (Range.start range - Range.overscan range) 0 in
  let last := Z.min (Range.end_ range + Range.overscan range) (Range.size range - 1) in
  (∀ i, i ∈ defaultRangeExtractor range ↔ (first ≤ Z.of_nat i ≤ last)%Z) ∧
  (∀ k i, defaultRangeExtractor range !! k = Some i ↔
          (Z.of_nat i = first + Z.of_nat k)%Z ∧ (first + Z.of_nat k ≤ last)%Z) ∧
  ((Range.size range ≤ 0)%Z → defaultRangeExtractor range = []).
Proof.
  intros first last. split_and!.
  - intros i. apply elem_of_defaultRangeExtractor.
  - intros k i. unfold defaultRangeExtractor. fold first last.
    rewrite lookup_seq. lia.
  - intros Hsize. unfold defaultRangeExtractor. fold first last.
    by replace (Z.to_nat (last - first + 1)) with 0 by lia.
Qed.

(** What a run of the hook body leaves in the state. *)
Lemma render_state (size : nat) (estimateSize : nat → Q) (overscan : Z)
    (paddingStart paddingEnd : Q) (keyExtractor : nat → Key)
    (rangeExtractor : Range.t → list nat) (depsChanged : bool)
    (outerSize scrollOffset : Q) (w w' : World.t) (items : list VirtualItem.t) :
  UseVirtual.render size estimateSize overscan paddingStart paddingEnd keyExtractor
    rangeExtractor depsChanged outerSize scrollOffset w = Returns (w', items) →
  let spans :=
    if depsChanged
    then UseVirtual.measurements size estimateSize paddingStart keyExtractor
           (World.measuredCache w) (World.pendingMeasuredCacheIndexesRef w)
           (Latest.measurements (World.latestRef w))
    else Latest.measurements (World.latestRef w) in
  World.latestRef w'
  = Latest.mk outerSize scrollOffset spans (UseVirtual.totalSize size paddingEnd spans) ∧
  World.scrollOffsetWithAdjustmentsRef w'
  = (if Num.strictNe (Latest.scrollOffset (World.latestRef w)) scrollOffset
     then scrollOffset else World.scrollOffsetWithAdjustmentsRef w) ∧
  World.measuredCache w' = World.measuredCache w ∧
  World.pendingMeasuredCacheIndexesRef w'
  = (if depsChanged then [] else World.pendingMeasuredCacheIndexesRef w) ∧
  World.effects w' = World.effects w ∧
  World.animationFrames w' = World.animationFrames w ∧
  ∃ range,
    calculateRange (World.latestRef w') = Returns range ∧
    items = (fun i => VirtualItem.mk (JsArray.get spans (Z.of_nat i)) i)
              <$> rangeExtractor
                    (Range.mk (fst range) (snd range) overscan (Z.of_nat size)).
Proof.
  intros Hrun spans. unfold UseVirtual.render in Hrun.
  destruct (calculateRange _) as [range| |] eqn:Hrange; [|done..].
  cbn [obind] in Hrun. injection Hrun as <- <-.
  destruct w as [latest adj cache pending effects frames]. cbn in *.
  destruct (Num.strictNe _ _), depsChanged; cbn; split_and!; try done; by exists range.
Qed.

(** Property X11.  Every visible row is rendered.  With at least one item, sizes
    that are not negative, an overscan that is not negative, the default
    range extractor and nothing pending, a run of the hook body returns;
    every item it renders has its span, with its own index, below the item
    count; and every span that is visible at the reported scroll offset is
    rendered. *)
Theorem render_covers_visible (size : nat) (estimateSize : nat → Q)
    (overscan : Z) (paddingStart paddingEnd : Q) (keyExtractor : nat → Key)
    (outerSize scrollOffset : Q) (w : World.t) :
  1 ≤ size → (Z.of_nat size ≤ 2 ^ 31)%Z →
  (∀ i, (0 <= estimateSize i)%Q) →
  (∀ k measured, World.measuredCache w !! k = Some measured → (0 <= measured)%Q) →
  (0 ≤ overscan)%Z →
  World.pendingMeasuredCacheIndexesRef w = [] →
  ∃ w' items,
    UseVirtual.render size estimateSize overscan paddingStart paddingEnd keyExtractor
      defaultRangeExtractor true outerSize scrollOffset w = Returns (w', items) ∧
    (∀ item, item ∈ items →
       VirtualItem.i item < size ∧
       ∃ m, VirtualItem.measurement item = Some m ∧
            Measurement.index m = VirtualItem.i item) ∧
    (∀ i m,
       JsArray.get (Latest.measurements (World.latestRef w')) (Z.of_nat i) = Some m →
       visible scrollOffset outerSize m →
       VirtualItem.mk (Some m) i ∈ items).
Proof.
  intros Hpos Hsmall Hestimate Hcache Hoverscan Hpending.
  set (spans := UseVirtual.measurements size estimateSize paddingStart keyExtractor
                  (World.measuredCache w) [] (Latest.measurements (World.latestRef w))).
  destruct (derived_spans_outside_hidden size estimateSize keyExtractor paddingStart
              (World.measuredCache w) (Latest.measurements (World.latestRef w))
              scrollOffset outerSize (UseVirtual.totalSize size paddingEnd spans)
              Hpos Hsmall Hestimate Hcache)
    as (s & e & Hrun & Hs & Hse & He & Hbefore & Hafter).
  fold spans in Hrun, Hbefore, Hafter.
  assert (Hrender :
    UseVirtual.render size estimateSize overscan paddingStart paddingEnd keyExtractor
      defaultRangeExtractor true outerSize scrollOffset w
    = Returns
        (World.setLatest
           (Latest.mk outerSize scrollOffset spans
              (UseVirtual.totalSize size paddingEnd spans))
           (World.setPending []
              (if Num.strictNe (Latest.scrollOffset (World.latestRef w)) scrollOffset
               then World.setAdjustments scrollOffset w else w)),
         (fun i => VirtualItem.mk (JsArray.get spans (Z.of_nat i)) i)
           <$> defaultRangeExtractor (Range.mk s e overscan (Z.of_nat size)))).
  { unfold UseVirtual.render.
    assert (World.pendingMeasuredCacheIndexesRef
              (if Num.strictNe (Latest.scrollOffset (World.latestRef w)) scrollOffset
               then World.setAdjustments scrollOffset w else w) = []) as ->.
    { by destruct (Num.strictNe _ _). }
    assert (World.measuredCache
              (if Num.strictNe (Latest.scrollOffset (World.latestRef w)) scrollOffset
               then World.setAdjustments scrollOffset w else w)
            = World.measuredCache w) as ->.
    { by destruct (Num.strictNe _ _). }
    fold spans. by rewrite Hrun. }
  eexists _, _. split; [exact Hrender|].
  destruct (measurements_spec estimateSize paddingStart keyExtractor
              (World.measuredCache w) size [] (Latest.measurements (World.latestRef w)))
    as (_ & Hfilled). fold spans in Hfilled.
  split.
  - intros item Hitem. apply list_elem_of_fmap in Hitem as (i & -> & Hi).
    apply elem_of_defaultRangeExtractor in Hi. cbn in Hi.
    destruct (Hfilled i) as (m & Hm & _ & Hindex & _); [cbn; lia|].
    cbn. split; [lia|]. by exists m.
  - intros i m Hm Hvisible. cbn in Hm. destruct Hvisible as [Hend Hstart].
    apply list_elem_of_fmap. exists i. rewrite Hm. split; [done|].
    apply elem_of_defaultRangeExtractor. cbn.
    pose proof (get_Some_range _ _ _ Hm) as Hrange.
    unfold spans in Hrange. rewrite measurements_length in Hrange.
    assert (s ≤ Z.of_nat i)%Z.
    { destruct (Z.le_gt_cases s (Z.of_nat i)) as [|Hlt]; [done|].
      pose proof (Hbefore _ _ Hm Hlt). lra. }
    assert (Z.of_nat i ≤ e)%Z.
    { destruct (Z.le_gt_cases (Z.of_nat i) e) as [|Hgt]; [done|].
      pose proof (Hafter _ _ Hm Hgt). lra. }
    lia.
Qed.

(** 200 rows of 50 in a viewport of 200 at offset 120. *)
Lemma render_covers_visible_witness :
  ∃ w' items,
    UseVirtual.render 200 defaultEstimateSize 1 0 0 defaultKeyExtractor
      defaultRangeExtractor true 200 120 (World.initial 0) = Returns (w', items) ∧
    (∀ item, item ∈ items →
       VirtualItem.i item < 200 ∧
       ∃ m, VirtualItem.measurement item = Some m ∧
            Measurement.index m = VirtualItem.i item) ∧
    (∀ i m,
       JsArray.get (Latest.measurements (World.latestRef w')) (Z.of_nat i) = Some m →
       visible 120 200 m →
       VirtualItem.mk (Some m) i ∈ items).
Proof.
  apply (render_covers_visible 200 defaultEstimateSize 1 0 0 defaultKeyExtractor
           200 120 (World.initial 0)).
  - lia.
  - vm_compute. discriminate.
  - intros i. vm_compute. discriminate.
  - intros k measured Hlookup. cbn in Hlookup. by rewrite lookup_empty in Hlookup.
  - lia.
  - reflexivity.
Defined.

(** Property X12.  With no item and nothing pending a run of the hook body renders
    nothing: the spans are empty, [totalSize] is [paddingEnd], and the
    default range extractor yields no index, whatever the overscan. *)
Theorem render_no_items (estimateSize : nat → Q) (overscan : Z)
    (paddingStart paddingEnd : Q) (keyExtractor : nat → Key)
    (outerSize scrollOffset : Q) (w : World.t) :
  World.pendingMeasuredCacheIndexesRef w = [] →
  ∃ w',
    UseVirtual.render 0 estimateSize overscan paddingStart paddingEnd keyExtractor
      defaultRangeExtractor true outerSize scrollOffset w = Returns (w', []) ∧
    Latest.measurements (World.latestRef w') = [] ∧
    Latest.totalSize (World.latestRef w') == paddingEnd.
Proof.
  intros Hpending. unfold UseVirtual.render.
  assert (World.pendingMeasuredCacheIndexesRef
            (if Num.strictNe (Latest.scrollOffset (World.latestRef w)) scrollOffset
             then World.setAdjustments scrollOffset w else w) = []) as ->.
  { by destruct (Num.strictNe _ _). }
  assert (∀ cache previous,
            UseVirtual.measurements 0 estimateSize paddingStart keyExtractor cache []
              previous = []) as Hspans.
  { intros cache previous. apply length_zero_iff_nil, measurements_length. }
  rewrite Hspans. cbn [calculateRange obind fst snd].
  assert (defaultRangeExtractor (Range.mk 0 0 overscan (Z.of_nat 0)) = []) as Hnone.
  { unfold defaultRangeExtractor. cbn [Range.start Range.end_ Range.overscan Range.size].
    by replace (Z.to_nat (Z.min (0 + overscan) (Z.of_nat 0 - 1)
                          - Z.max (0 - overscan) 0 + 1)) with 0 by lia. }
  change (calculateRange (Latest.mk outerSize scrollOffset []
            (UseVirtual.totalSize 0 paddingEnd []))) with (@Returns (Z * Z) (0%Z, 0%Z)).
  cbn [obind fst snd]. rewrite Hnone. cbn [fmap list_fmap].
  eexists. split; [reflexivity|]. cbn. split; [done|].
  apply totalSize_no_items.
Qed.

Lemma render_no_items_witness :
  ∃ w',
    UseVirtual.render 0 defaultEstimateSize 1 10 5 defaultKeyExtractor
      defaultRangeExtractor true 200 0 (World.initial 0) = Returns (w', []) ∧
    Latest.measurements (World.latestRef w') = [] ∧
    Latest.totalSize (World.latestRef w') == 5.
Proof.
  apply (render_no_items defaultEstimateSize 1 10 5 defaultKeyExtractor 200 0
           (World.initial 0)).
  reflexivity.
Defined.

(** ** More on the measurement hook and the scroll operations *)

(** What a report of a different size from an item above the scroll
    offset leaves in the state. *)
Lemma measureRef_above (horizontal : bool) (measureSize : HTMLElement → bool → Q)
    (m : Measurement.t) (i : nat) (el : HTMLElement) (w : World.t) :
  ¬ measureSize el horizontal == Measurement.size m →
  (Measurement.start m < Latest.scrollOffset (World.latestRef w))%Q →
  let adjusted :=
    (World.scrollOffsetWithAdjustmentsRef w
     + (measureSize el horizontal - Measurement.size m))%Q in
  UseVirtual.measureRef horizontal measureSize (VirtualItem.mk (Some m) i) (Some el) w
  = World.mk (World.latestRef w) adjusted
      (<[propertyName (Measurement.key m) := measureSize el horizontal]>
         (World.measuredCache w))
      (World.pendingMeasuredCacheIndexesRef w ++ [i])
      (World.effects w ++ [DefaultScrollTo adjusted SizeChanged])
      (World.animationFrames w).
Proof.
  intros Hdiffers Hbefore adjusted.
  apply Num_strictNe_true in Hdiffers. apply Num_lt_true in Hbefore.
  unfold UseVirtual.measureRef, UseVirtual.sizeDiffers. cbn.
  by rewrite Hdiffers, Hbefore.
Qed.

(** Property X13.  Size corrections above the fold add up.  After one item above the
    scroll offset has reported a new size, a run of the hook body at the
    same scroll offset keeps the tracked offset, and the next such report
    asks the adapter for the offset advanced by both deltas; if the
    reported scroll offset has changed, the tracked offset restarts from
    it. *)
Theorem measureRef_accumulates (size : nat) (estimateSize : nat → Q)
    (overscan : Z) (paddingStart paddingEnd : Q) (horizontal : bool)
    (keyExtractor : nat → Key) (measureSize : HTMLElement → bool → Q)
    (rangeExtractor : Range.t → list nat) (depsChanged : bool)
    (m1 m2 : Measurement.t) (i1 i2 : nat) (el1 el2 : HTMLElement)
    (outerSize scrollOffset : Q) (w w' : World.t) (items : list VirtualItem.t) :
  let delta1 := (measureSize el1 horizontal - Measurement.size m1)%Q in
  let delta2 := (measureSize el2 horizontal - Measurement.size m2)%Q in
  let tracked := World.scrollOffsetWithAdjustmentsRef w in
  ¬ measureSize el1 horizontal == Measurement.size m1 →
  (Measurement.start m1 < Latest.scrollOffset (World.latestRef w))%Q →
  UseVirtual.render size estimateSize overscan paddingStart paddingEnd keyExtractor
    rangeExtractor depsChanged outerSize scrollOffset
    (UseVirtual.measureRef horizontal measureSize (VirtualItem.mk (Some m1) i1)
       (Some el1) w)
  = Returns (w', items) →
  ¬ measureSize el2 horizontal == Measurement.size m2 →
  (Measurement.start m2 < scrollOffset)%Q →
  let w'' := UseVirtual.measureRef horizontal measureSize
               (VirtualItem.mk (Some m2) i2) (Some el2) w' in
  (scrollOffset == Latest.scrollOffset (World.latestRef w) →
   World.effects w''
   = World.effects w
     ++ [DefaultScrollTo (tracked + delta1) SizeChanged;
         DefaultScrollTo (tracked + delta1 + delta2) SizeChanged]) ∧
  (¬ scrollOffset == Latest.scrollOffset (World.latestRef w) →
   World.effects w''
   = World.effects w
     ++ [DefaultScrollTo (tracked + delta1) SizeChanged;
         DefaultScrollTo (scrollOffset + delta2) SizeChanged]).
Proof.
  intros delta1 delta2 tracked Hdiffers1 Hbefore1 Hrender Hdiffers2 Hbefore2 w''.
  rewrite (measureRef_above _ _ _ _ _ _ Hdiffers1 Hbefore1) in Hrender.
  apply render_state in Hrender as (Hlatest & Htracked & _ & _ & Heffects & _).
  cbn in Htracked, Heffects.
  subst w''. rewrite measureRef_above; [|done|by rewrite Hlatest].
  cbn. rewrite Heffects, Htracked, <- app_assoc. cbn [app].
  split.
  - intros Hsame. symmetry in Hsame. apply Num_strictNe_false in Hsame. by rewrite Hsame.
  - intros Hchanged.
    assert (¬ Latest.scrollOffset (World.latestRef w) == scrollOffset) as Hchanged'.
    { intros Heq. apply Hchanged. by symmetry. }
    apply Num_strictNe_true in Hchanged'. by rewrite Hchanged'.
Qed.

(** Scrolled to 75, rows 0 and 1 (of 50 each) turn out to be 25 high, one
    run of the hook body apart: the adapter is asked for 50, then for 25. *)
Lemma measureRef_accumulates_witness :
  match
    UseVirtual.render 3 defaultEstimateSize 1 0 0 defaultKeyExtractor
      defaultRangeExtractor true 200 75
      (UseVirtual.measureRef false defaultMeasureSize
         (VirtualItem.mk (Some (Measurement.mk (KeyNumber 0) 0 0 50 50)) 0)
         (Some (Scenario.element 25))
         (World.setLatest (Latest.mk 200 75 [] 0) (World.initial 75)))
  with
  | Returns (w', _) =>
      World.effects
        (UseVirtual.measureRef false defaultMeasureSize
           (VirtualItem.mk (Some (Measurement.mk (KeyNumber 1) 1 25 75 50)) 1)
           (Some (Scenario.element 25)) w')
      = [DefaultScrollTo (75 + (25 - 50)) SizeChanged;
         DefaultScrollTo (75 + (25 - 50) + (25 - 50)) SizeChanged]
  | _ => False
  end.
Proof.
  destruct (UseVirtual.render _ _ _ _ _ _ _ _ _ _ _) as [[w' items]| |] eqn:Hrender.
  - apply (proj1 (measureRef_accumulates 3 defaultEstimateSize 1 0 0 false
                    defaultKeyExtractor defaultMeasureSize defaultRangeExtractor true
                    (Measurement.mk (KeyNumber 0) 0 0 50 50)
                    (Measurement.mk (KeyNumber 1) 1 25 75 50) 0 1
                    (Scenario.element 25) (Scenario.element 25) 200 75
                    (World.setLatest (Latest.mk 200 75 [] 0) (World.initial 75))
                    w' items
                    ltac:(vm_compute; discriminate) ltac:(reflexivity) Hrender
                    ltac:(vm_compute; discriminate) ltac:(reflexivity))).
    reflexivity.
  - vm_compute in Hrender. discriminate.
  - vm_compute in Hrender. discriminate.
Defined.

(** Property X15.  The double request.  With no other callback waiting, the next
    animation frame after [scrollToIndex] leaves the state that two
    successive calls of [tryScrollToIndex] leave: the second attempt reads
    the state the first one left. *)
Theorem scrollToIndex_twice (size : nat) (scrollToFn : bool) (index : Z)
    (align : ScrollAlignment) (w : World.t) :
  World.animationFrames w = [] →
  UseVirtual.runAnimationFrame size scrollToFn
    (UseVirtual.scrollToIndex size scrollToFn index align w)
  = UseVirtual.tryScrollToIndex size scrollToFn index align
      (UseVirtual.tryScrollToIndex size scrollToFn index align w).
Proof.
  intros Hempty. unfold UseVirtual.scrollToIndex, UseVirtual.runAnimationFrame.
  set (w1 := UseVirtual.tryScrollToIndex size scrollToFn index align w).
  assert (World.animationFrames w1 = []) as Hempty1.
  { subst w1. by rewrite tryScrollToIndex_animationFrames. }
  cbn [World.setAnimationFrames World.animationFrames]. rewrite Hempty1. cbn [app].
  transitivity (UseVirtual.tryScrollToIndex size scrollToFn index align
                  (World.setAnimationFrames [] w1)).
  { done. }
  rewrite <- Hempty1 at 1. f_equal. by destruct w1.
Qed.

(** Row 5 again: both attempts ask the adapter for the same offset while
    the scroll offset has not moved. *)
Lemma scrollToIndex_twice_witness :
  World.effects
    (UseVirtual.runAnimationFrame 100 false
       (UseVirtual.scrollToIndex 100 false 5 AlignAuto
          (World.setLatest
             (Latest.mk 200 0
                (UseVirtual.measurements 100 defaultEstimateSize 0 defaultKeyExtractor
                   ∅ [] []) 5000)
             (World.initial 0))))
  = [DefaultScrollTo (300 - 200) ToIndex; DefaultScrollTo (300 - 200) ToIndex].
Proof.
  rewrite (scrollToIndex_twice 100 false 5 AlignAuto
             (World.setLatest
                (Latest.mk 200 0
                   (UseVirtual.measurements 100 defaultEstimateSize 0
                      defaultKeyExtractor ∅ [] []) 5000)
                (World.initial 0))
             ltac:(reflexivity)).
  vm_compute. reflexivity.
Defined.

(** Property X16.  The window adapter's round trip.  When the window ends
    up at the position [scrollToFn] wrote, the next scroll event reports,
    for the reasons ['ToIndex'] and ['SizeChanged'], the number
    [(offset + parentOffsetRef) - parentOffsetRef], computed in that order
    -- the requested offset when [parentOffsetRef] is zero -- and for
    ['ToOffset'] the requested offset minus [parentOffsetRef]. *)
Theorem windowScroll_round_trip (horizontal : bool)
    (window later : WindowScroll.Window) (st : WindowScroll.t) (offset : Q)
    (reason : ScrollReason) (arg : WindowScroll.ScrollToArg) :
  WindowScroll.scrollToFn horizontal (Some window) st offset reason = Some arg →
  WindowScroll.written horizontal arg
  = Some (WindowScroll.scrollPosition horizontal later) →
  let reported :=
    WindowScroll.scrollOffset (WindowScroll.onScroll horizontal later st) in
  let parentOffset := WindowScroll.parentOffsetRef st in
  (reason ≠ ToOffset → reported = (offset + parentOffset - parentOffset)%Q) ∧
  (reason ≠ ToOffset → parentOffset == 0 → reported == offset) ∧
  (reason = ToOffset → reported == offset - parentOffset).
Proof.
  intros Hwrite Hwritten reported parentOffset. subst reported parentOffset.
  cbn in Hwrite. injection Hwrite as <-.
  assert (WindowScroll.scrollPosition horizontal later
          = (offset + (if WindowScroll.translated reason
                       then WindowScroll.parentOffsetRef st else 0))%Q) as Hposition.
  { destruct horizontal; cbn in Hwritten |- *; congruence. }
  unfold WindowScroll.onScroll. cbn [WindowScroll.scrollOffset]. rewrite Hposition.
  split_and!.
  - intros Hreason. by destruct reason.
  - intros Hreason Hzero. destruct reason; try done; cbn; rewrite Hzero; lra.
  - intros ->. cbn. lra.
Qed.

(** A container 300 below the top of a page scrolled to 120: asked for 50
    with reason ['ToOffset'], the list ends up at 50 - 420. *)
Lemma windowScroll_round_trip_witness :
  WindowScroll.scrollOffset
    (WindowScroll.onScroll false
       {| WindowScroll.scrollX := 0; WindowScroll.scrollY := 50 + 0 |}
       (WindowScroll.attach false
          (Some {| WindowScroll.scrollX := 0; WindowScroll.scrollY := 120 |})
          (Some {| WindowScroll.left := 0; WindowScroll.top := 300 |})
          WindowScroll.initial))
  == 50 - (120 + 300).
Proof.
  apply (proj2 (proj2 (windowScroll_round_trip false
                  {| WindowScroll.scrollX := 0; WindowScroll.scrollY := 120 |}
                  {| WindowScroll.scrollX := 0; WindowScroll.scrollY := 50 + 0 |}
                  (WindowScroll.attach false
                     (Some {| WindowScroll.scrollX := 0; WindowScroll.scrollY := 120 |})
                     (Some {| WindowScroll.left := 0; WindowScroll.top := 300 |})
                     WindowScroll.initial)
                  50 ToOffset
                  {| WindowScroll.arg_left := None;
                     WindowScroll.arg_top := Some (50 + 0)%Q |}
                  ltac:(reflexivity) ltac:(reflexivity)))).
  reflexivity.
Defined.

(** ** The range of the earlier variant *)

(** With a scroll offset, the binary search of [src/index.js] is the one
    of [index.ts]. *)
Lemma legacy_findNearestBinarySearch_loop_agrees (fuel : nat) (low high : Z)
    (f g : Z → outcome Q) (value : Q) :
  (∀ z, f z = g z) →
  Legacy.findNearestBinarySearch_loop fuel low high f (Some value)
  = findNearestBinarySearch_loop fuel low high g value.
Proof.
  intros Hfg. revert low high.
  induction fuel as [|fuel IH]; intros low high; [done|].
  cbn [Legacy.findNearestBinarySearch_loop findNearestBinarySearch_loop].
  destruct (low <=? high)%Z; [|done].
  rewrite Hfg. destruct (g _) as [currentValue| |]; cbn; try done.
  unfold Legacy.gt. rewrite !IH. done.
Qed.

(** ... and so is the loop that advances [end]. *)
Lemma legacy_calculateRange_end_agrees (keyExtractor : nat → Key)
    (spans : array Legacy.Measurement.t) (limit : Q) (remaining : nat) (end_ : Z) :
  Legacy.calculateRange_end spans (Some limit) remaining end_
  = calculateRange_end (keyedSpans keyExtractor spans) limit remaining end_.
Proof.
  revert end_. induction remaining as [|remaining IH]; intros end_; [done|].
  cbn [Legacy.calculateRange_end calculateRange_end].
  rewrite get_keyedSpans. destruct (JsArray.get spans end_) as [m|]; cbn; [|done].
  by rewrite IH.
Qed.

(** Property X17.  With a scroll offset, [calculateRange] of [src/index.js] returns
    the range [calculateRange] of [index.ts] finds on the same spans,
    widened by [overscan] on both sides and clamped to the indices of the
    array; it throws exactly when the other does, and the value does not
    depend on [prevRange]. *)
Theorem legacy_calculateRange_widens (keyExtractor : nat → Key)
    (latest : Legacy.Latest.t) (prevRange : option Legacy.Range.t)
    (scrollOffset totalSize : Q) :
  Legacy.Latest.scrollOffset latest = Some scrollOffset →
  Legacy.calculateRange latest prevRange
  = (range ←! calculateRange
                (Latest.mk (Legacy.Latest.outerSize latest) scrollOffset
                   (keyedSpans keyExtractor (Legacy.Latest.measurements latest))
                   totalSize);
     Returns (widened (Legacy.Latest.overscan latest)
                (length (Legacy.Latest.measurements latest)) range)).
Proof.
  intros Hoffset. unfold Legacy.calculateRange, calculateRange.
  cbn [Latest.measurements Latest.outerSize Latest.scrollOffset].
  rewrite Hoffset, length_keyedSpans.
  unfold Legacy.findNearestBinarySearch, findNearestBinarySearch.
  rewrite (legacy_findNearestBinarySearch_loop_agrees _ _ _ _
             (fun index =>
                m ←! deref (JsArray.get
                              (keyedSpans keyExtractor (Legacy.Latest.measurements latest))
                              index);
                Returns (Measurement.start m))).
  2:{ intros z. rewrite get_keyedSpans.
      by destruct (JsArray.get (Legacy.Latest.measurements latest) z). }
  destruct (findNearestBinarySearch_loop _ _ _ _ _) as [start| |]; cbn; try done.
  rewrite (legacy_calculateRange_end_agrees keyExtractor).
  destruct (calculateRange_end _ _ _ _) as [end_| |]; cbn; try done.
  unfold widened. cbn.
  destruct prevRange as [[prevStart prevEnd]|]; [|done]. cbn.
  destruct (Z.eqb_spec prevStart
              (Z.max (start - Legacy.Latest.overscan latest) 0)) as [->|]; [|done].
  destruct (Z.eqb_spec prevEnd
              (Z.min (end_ + Legacy.Latest.overscan latest)
                 (Z.of_nat (length (Legacy.Latest.measurements latest)) - 1)))
    as [->|]; done.
Qed.

(** Ten rows of 50 in a viewport of 120 scrolled to 260: rows 5 to 7 are
    found, and an overscan of 1 turns them into 4 to 8. *)
Lemma legacy_calculateRange_widens_witness :
  Legacy.calculateRange
    (Legacy.Latest.mk 1
       (Legacy.measurements 10 defaultEstimateSize 0 defaultKeyExtractor ∅)
       120 500 (Some 260%Q))
    (Some (Legacy.Range.mk 0 0))
  = Returns (Legacy.Range.mk 4 8).
Proof.
  rewrite (legacy_calculateRange_widens defaultKeyExtractor
             (Legacy.Latest.mk 1
                (Legacy.measurements 10 defaultEstimateSize 0 defaultKeyExtractor ∅)
                120 500 (Some 260%Q))
             (Some (Legacy.Range.mk 0 0)) 260 500 ltac:(reflexivity)).
  vm_compute. reflexivity.
Defined.

(** Property X18.  Without a scroll offset ([undefined]) every comparison of
    [src/index.js]'s [calculateRange] is false: the search stops at its
    first probe, the middle index, [end] does not advance, and the range
    is that one index widened by [overscan]. *)
Theorem legacy_calculateRange_undefined (latest : Legacy.Latest.t)
    (prevRange : option Legacy.Range.t) (m : Legacy.Measurement.t) :
  let N := Z.of_nat (length (Legacy.Latest.measurements latest)) in
  Legacy.Latest.scrollOffset latest = None →
  (N ≤ 2 ^ 31)%Z →
  JsArray.get (Legacy.Latest.measurements latest) ((N - 1) / 2) = Some m →
  Legacy.calculateRange latest prevRange
  = Returns (widened (Legacy.Latest.overscan latest)
               (length (Legacy.Latest.measurements latest))
               ((N - 1) / 2, (N - 1) / 2)%Z).
Proof.
  intros N Hoffset Hbound Hm.
  assert (0 < N)%Z as Hpos.
  { destruct (decide (0 < N)%Z) as [|Hempty]; [done|].
    assert (N = 0%Z) as HN by lia. rewrite HN in Hm. change ((0 - 1) / 2)%Z with (-1)%Z in Hm.
    by rewrite get_negative in Hm by lia. }
  unfold Legacy.calculateRange. rewrite Hoffset. fold N.
  unfold Legacy.findNearestBinarySearch.
  replace (Z.to_nat (N - 1 - 0 + 2)) with (S (Z.to_nat N)) by lia.
  cbn [Legacy.findNearestBinarySearch_loop].
  destruct (Z.leb_spec 0 (N - 1)) as [_|]; [|lia].
  assert (Num.bitOr (Z.quot (0 + (N - 1)) 2) 0 = ((N - 1) / 2)%Z) as ->.
  { rewrite Z.quot_div_nonneg by lia. rewrite Z.add_0_l.
    assert (0 ≤ (N - 1) / 2)%Z by (apply Z.div_pos; lia).
    assert ((N - 1) / 2 ≤ N - 1)%Z by (apply Z.div_le_upper_bound; lia).
    apply bitOr_zero. lia. }
  rewrite Hm. cbn [deref obind Legacy.compare Legacy.plus fmap option_fmap option_map].
  assert (∀ remaining,
            Legacy.calculateRange_end (Legacy.Latest.measurements latest) None
              remaining ((N - 1) / 2)
            = Returns ((N - 1) / 2)%Z) as ->.
  { intros [|remaining]; [done|]. cbn. by rewrite Hm. }
  cbn [obind]. unfold widened. cbn [fst snd].
  destruct prevRange as [[prevStart prevEnd]|]; [|done]. cbn.
  destruct (Z.eqb_spec prevStart
              (Z.max ((N - 1) / 2 - Legacy.Latest.overscan latest) 0)) as [->|]; [|done].
  destruct (Z.eqb_spec prevEnd
              (Z.min ((N - 1) / 2 + Legacy.Latest.overscan latest) (N - 1)))
    as [->|]; done.
Qed.

(** Ten rows and an overscan of 1: rows 3 to 5. *)
Lemma legacy_calculateRange_undefined_witness :
  Legacy.calculateRange
    (Legacy.Latest.mk 1
       (Legacy.measurements 10 defaultEstimateSize 0 defaultKeyExtractor ∅)
       120 500 None)
    None
  = Returns (Legacy.Range.mk 3 5).
Proof.
  apply (legacy_calculateRange_undefined
           (Legacy.Latest.mk 1
              (Legacy.measurements 10 defaultEstimateSize 0 defaultKeyExtractor ∅)
              120 500 None)
           None
           (Legacy.Measurement.mk 4 200 50 250)).
  - reflexivity.
  - vm_compute. discriminate.
  - vm_compute. reflexivity.
Defined.

(** Property X19.  Every virtual item of [src/index.js] has a span, whichever
    spans the range was computed from: [calculateRange] never returns a
    negative [start], and the [virtualItems] memo stops at the last index
    of the current array. *)
Theorem legacy_virtualItems_have_spans (latest : Legacy.Latest.t)
    (prevRange : option Legacy.Range.t) (range : Legacy.Range.t)
    (measurements : array Legacy.Measurement.t) (i : Z)
    (item : option Legacy.Measurement.t) :
  Legacy.calculateRange latest prevRange = Returns range →
  noHoles measurements →
  (i, item) ∈ Legacy.virtualItems range measurements →
  is_Some item ∧ JsArray.get measurements i = item ∧
  (Legacy.Range.start range ≤ i ≤ Legacy.Range.end_ range)%Z.
Proof.
  intros Hrange Hdense Hin.
  assert (0 ≤ Legacy.Range.start range)%Z as Hstart.
  { unfold Legacy.calculateRange in Hrange.
    destruct (Legacy.findNearestBinarySearch _ _ _ _) as [start| |]; cbn in Hrange;
      try done.
    destruct (Legacy.calculateRange_end _ _ _ _) as [end_| |]; cbn in Hrange;
      try done.
    destruct prevRange as [[prevStart prevEnd]|]; cbn in Hrange.
    - destruct (Z.eqb_spec prevStart
                  (Z.max (start - Legacy.Latest.overscan latest) 0)) as [->|];
        cbn in Hrange.
      + destruct (negb _); injection Hrange as <-; cbn; lia.
      + injection Hrange as <-; cbn; lia.
    - injection Hrange as <-; cbn; lia. }
  unfold Legacy.virtualItems in Hin.
  apply list_elem_of_fmap in Hin as (z & Heq & Hz). injection Heq as -> ->.
  apply elem_of_seqZ in Hz.
  split_and!; [|done|lia|lia].
  apply Hdense. lia.
Qed.

(** The list has shrunk from ten rows to six since rows 4 to 8 were
    found: row 4 is still an item, with its span. *)
Lemma legacy_virtualItems_have_spans_witness :
  is_Some (Some (Legacy.Measurement.mk 4 200 50 250)) ∧
  JsArray.get (Legacy.measurements 6 defaultEstimateSize 0 defaultKeyExtractor ∅) 4
  = Some (Legacy.Measurement.mk 4 200 50 250) ∧
  (4 ≤ 4 ≤ 8)%Z.
Proof.
  apply (legacy_virtualItems_have_spans
           (Legacy.Latest.mk 1
              (Legacy.measurements 10 defaultEstimateSize 0 defaultKeyExtractor ∅)
              120 500 (Some 260%Q))
           None (Legacy.Range.mk 4 8)
           (Legacy.measurements 6 defaultEstimateSize 0 defaultKeyExtractor ∅)
           4 (Some (Legacy.Measurement.mk 4 200 50 250))).
  - vm_compute. reflexivity.
  - intros z Hz. change (Z.of_nat _) with 6%Z in Hz.
    assert (z = 0 ∨ z = 1 ∨ z = 2 ∨ z = 3 ∨ z = 4 ∨ z = 5)%Z as Hcases by lia.
    destruct Hcases as [->|[->|[->|[->|[->| ->]]]]]; vm_compute; eauto.
  - vm_compute. repeat first [apply list_elem_of_here | apply list_elem_of_further].
Defined.

(** Property X20.  [src/index.js] does not track its own corrections.  Two items
    above the scroll offset that report new sizes before the next scroll
    event each ask the setter for the scroll offset plus their own delta:
    the second request drops the first correction. *)
Theorem legacy_measureRef_forgets (keyExtractor : nat → Key)
    (item1 item2 : Legacy.Measurement.t) (i1 i2 : nat) (size1 size2 : Q)
    (scrollOffset : Q) (w : Legacy.World.t) :
  let w' :=
    Legacy.measureRef keyExtractor item2 i2 (Some size2)
      (Legacy.measureRef keyExtractor item1 i1 (Some size1) w) in
  Legacy.Latest.scrollOffset (Legacy.World.latestRef w) = Some scrollOffset →
  ¬ size1 == Legacy.Measurement.size item1 →
  ¬ size2 == Legacy.Measurement.size item2 →
  (Legacy.Measurement.start item1 < scrollOffset)%Q →
  (Legacy.Measurement.start item2 < scrollOffset)%Q →
  Legacy.World.effects w'
  = Legacy.World.effects w
    ++ [Legacy.DefaultScrollTo (scrollOffset + (size1 - Legacy.Measurement.size item1));
        Legacy.DefaultScrollTo (scrollOffset + (size2 - Legacy.Measurement.size item2))] ∧
  Legacy.World.measuredCache w'
  = <[propertyName (keyExtractor i2) := size2]>
      (<[propertyName (keyExtractor i1) := size1]> (Legacy.World.measuredCache w)) ∧
  Legacy.World.latestRef w' = Legacy.World.latestRef w.
Proof.
  intros w' Hoffset Hdiffers1 Hdiffers2 Hbefore1 Hbefore2. subst w'.
  apply Num_strictNe_true in Hdiffers1, Hdiffers2.
  apply Num_lt_true in Hbefore1, Hbefore2.
  unfold Legacy.measureRef. rewrite Hdiffers1, Hoffset, Hbefore1.
  cbn [Legacy.World.latestRef Legacy.World.setMeasuredCache Legacy.World.perform].
  rewrite Hdiffers2, Hoffset, Hbefore2. cbn. by rewrite <- app_assoc.
Qed.

(** Scrolled to 75, rows 0 and 1 (of 50 each) both turn out to be 25
    high: the setter is asked for 50 twice. *)
Lemma legacy_measureRef_forgets_witness :
  Legacy.World.effects
    (Legacy.measureRef defaultKeyExtractor (Legacy.Measurement.mk 1 50 50 100) 1
       (Some 25%Q)
       (Legacy.measureRef defaultKeyExtractor (Legacy.Measurement.mk 0 0 50 50) 0
          (Some 25%Q)
          (Legacy.World.mk (Legacy.Latest.mk 1 [] 200 0 (Some 75%Q)) ∅ [] [])))
  = [] ++ [Legacy.DefaultScrollTo (75 + (25 - 50));
           Legacy.DefaultScrollTo (75 + (25 - 50))].
Proof.
  apply (proj1 (legacy_measureRef_forgets defaultKeyExtractor
                  (Legacy.Measurement.mk 0 0 50 50) (Legacy.Measurement.mk 1 50 50 100)
                  0 1 25 25 75
                  (Legacy.World.mk (Legacy.Latest.mk 1 [] 200 0 (Some 75%Q)) ∅ [] [])
                  ltac:(reflexivity)
                  ltac:(vm_compute; discriminate) ltac:(vm_compute; discriminate)
                  ltac:(reflexivity) ltac:(reflexivity))).
Defined.

(** ** The scenarios of the test suite *)

(** 200 rows of 50 in a viewport of 200, overscan 1: rows 0 to 4. *)
Example renders_first_rows :
  Scenario.indicesOf (Scenario.renderList 200 1 0 (World.initial 0))
  = Some [0; 1; 2; 3; 4].
Proof. vm_compute. reflexivity. Qed.

(** The same with overscan 0: rows 0 to 3. *)
Example renders_without_overscan :
  Scenario.indicesOf (Scenario.renderList 200 0 0 (World.initial 0))
  = Some [0; 1; 2; 3].
Proof. vm_compute. reflexivity. Qed.

(** Rows that measure 25 once rendered: rows 0 to 8 end up rendered. *)
Example dynamic_sizes_settle :
  Scenario.indicesOf (Scenario.settle 4 200 1 0 (World.initial 0))
  = Some [0; 1; 2; 3; 4; 5; 6; 7; 8].
Proof. vm_compute. reflexivity. Qed.

(** After scrolling to 75, rows 2 to 11; nothing above the fold changed
    size, so no scroll call was made. *)
Example dynamic_sizes_after_scroll :
  Scenario.indicesOf
    (r ←! Scenario.settle 4 200 1 0 (World.initial 0);
     Scenario.settle 3 200 1 75 (fst r))
  = Some [2; 3; 4; 5; 6; 7; 8; 9; 10; 11].
Proof. vm_compute. reflexivity. Qed.

(** Window mode, container at the top of the page: once the window has
    scrolled to 100 the first rendered row is row 2. *)
Example window_scroll_first_row :
  Scenario.indicesOf
    (Scenario.renderList 100 0
       (WindowScroll.scrollOffset
          (WindowScroll.onScroll false
             {| WindowScroll.scrollX := 0; WindowScroll.scrollY := 100 |}
             (WindowScroll.attach false
                (Some {| WindowScroll.scrollX := 0; WindowScroll.scrollY := 0 |})
                (Some {| WindowScroll.left := 0; WindowScroll.top := 0 |})
                WindowScroll.initial)))
       (World.initial 0))
  = Some [2; 3; 4; 5].
Proof. vm_compute. reflexivity. Qed.

(** [scrollToIndex(5)] on rows of 50 in a viewport of 200: one call to the
    adapter, for offset 300 - 200, before the next frame; rendered at that
    offset, row 5 is the last of four. *)
Example scrollToIndex_five :
  (r ←! Scenario.renderList 100 0 0 (World.initial 0);
   Returns (World.effects (UseVirtual.scrollToIndex 100 false 5 AlignAuto (fst r))))
  = Returns [DefaultScrollTo (300 - 200) ToIndex] ∧
  Scenario.indicesOf (Scenario.renderList 100 0 (300 - 200) (World.initial 0))
  = Some [2; 3; 4; 5].
Proof. split; vm_compute; reflexivity. Qed.
